(** * ReXNet-SSDLite: the detector glue of [model.py]

    [model.py] composes four external collaborators: the ReXNetV1 backbone
    (module [rexnetv1]), torchvision's SSD detector, the Lightning training
    loop and the [mean_average_precision] metric.  This development embeds
    the code of [model.py] itself:

    - Python values, exceptions, insertion-ordered dictionaries and keyword
      dictionaries (section "Python runtime");
    - the collaborators, as interfaces ([TorchNN], [Detection], [MetricLib]):
      what a layer computes, what the detector returns and what the metric
      accumulates are left abstract;
    - an object built by an external constructor is the record of the
      arguments the constructor received;
    - effects ([self.log], [logger.info], calls of the wrapped detector, the
      metric accumulator) are threaded through a state-and-exception monad
      [M] over a [World].

    An exception raised inside a collaborator is not modelled: a call of a
    collaborator is a total function.  The exceptions of the glue's own
    operations (subscripts, keyword binding, [assert], array concatenation)
    are. *)

From Stdlib Require Import ZArith QArith.
From stdpp Require Import base option list strings gmap pretty.

Set Default Proof Using "Type".
Set Warnings "-register-all".
Local Open Scope Z_scope.

(* ===================================================================== *)
(** * Python runtime *)
(* ===================================================================== *)

(** The exceptions the glue code can raise by itself. *)
Inductive exn : Type :=
  | TypeError
  | KeyError (key : string)
  | IndexError
  | ValueError
  | AssertionError.

Inductive result (A : Type) : Type :=
  | Ok (a : A)
  | Raise (e : exn).
Arguments Ok {A} a.
Arguments Raise {A} e.

#[global] Instance result_ret : MRet result := λ A a, Ok a.
#[global] Instance result_bind : MBind result := λ A B f r,
  match r with
  | Ok a => f a
  | Raise e => Raise e
  end.

(** Values that travel through keyword arguments. *)
Inductive pyval : Type :=
  | PyNone
  | PyBool (b : bool)
  | PyInt (n : Z)
  | PyFloat (q : Q)
  | PyStr (s : string)
  | PyList (l : list pyval)
  | PyObj (name : string).

(** [if v:] *)
Definition truthy (v : pyval) : bool :=
  match v with
  | PyNone => false
  | PyBool b => b
  | PyInt n => negb (n =? 0)
  | PyFloat q => negb (Qeq_bool q 0)
  | PyStr s => negb (String.eqb s "")
  | PyList l => negb (Nat.eqb (length l) 0)
  | PyObj _ => true
  end.

(** [v is None] *)
Definition is_none (v : pyval) : bool :=
  match v with
  | PyNone => true
  | _ => false
  end.

(** [str(n)] for a non-negative [int]. *)
Definition str (n : nat) : string := pretty n.

(** [range(n)] *)
Definition range (n : nat) : list nat := seq 0 n.

(** [l[idx]] for a non-negative index: outside the list it raises. *)
Definition list_getitem {A : Type} (l : list A) (idx : nat) : result A :=
  match l !! idx with
  | Some a => Ok a
  | None => Raise IndexError
  end.

(** [l[:stop]]: a negative [stop] counts from the end, and the bound is
    clamped to the list. *)
Definition slice_to {A : Type} (stop : Z) (l : list A) : list A :=
  let n := Z.of_nat (length l) in
  let hi := if stop <? 0 then Z.max 0 (n + stop) else Z.min stop n in
  take (Z.to_nat hi) l.

(** ** Insertion-ordered dictionaries

    A Python [dict] keeps its keys in the order of their first insertion;
    [values()] and [sum] over it follow that order. *)
Abbreviation odict V := (list (string * V)).

Fixpoint odict_get {V : Type} (k : string) (d : odict V) : option V :=
  match d with
  | [] => None
  | (k', v) :: d' => if decide (k = k') then Some v else odict_get k d'
  end.

(** [d[k] = v] *)
Fixpoint odict_set {V : Type} (k : string) (v : V) (d : odict V) : odict V :=
  match d with
  | [] => [(k, v)]
  | (k', v') :: d' =>
      if decide (k = k') then (k, v) :: d' else (k', v') :: odict_set k v d'
  end.

Definition odict_keys {V : Type} (d : odict V) : list string := d.*1.
Definition odict_values {V : Type} (d : odict V) : list V := d.*2.

(** [d[k]] *)
Definition odict_getitem {V : Type} (k : string) (d : odict V) : result V :=
  match odict_get k d with
  | Some v => Ok v
  | None => Raise (KeyError k)
  end.


(** A loop whose body may raise: [for a in l: acc = body(acc, a)]. *)
Fixpoint for_fold {A S : Type} (body : S → A → result S) (l : list A) (s : S) : result S :=
  match l with
  | [] => Ok s
  | a :: l' => s' ← body s a; for_fold body l' s'
  end.

(* ===================================================================== *)
(** * The collaborators and the objects built from them *)
(* ===================================================================== *)

(** [LinearBottleneck(in_channels, channels, t, stride, use_se, se_ratio)]
    of module [rexnetv1]: the block as constructed. *)
Record LinearBottleneck : Type := {
  in_channels : Z;
  channels : Z;
  t_expand : Z;
  stride : Z;
  use_se : bool;
  se_ratio : Z;
}.

(** torch and [rexnetv1]: tensors, the layers of a ReXNetV1 and what
    applying a layer computes. *)
Class TorchNN : Type := {
  Tensor : Type;
  (** a module held by [ReXNetV1.features] *)
  Layer : Type;
  (** [layer(x)] *)
  run_layer : Layer → Tensor → Tensor;
  run_bottleneck : LinearBottleneck → Tensor → Tensor;
  (** [param.requires_grad = False] on every parameter of a layer *)
  requires_grad_false : Layer → Layer;
  (** [torch.zeros(shape)] and [x.size(dim)] *)
  zeros : list Z → Tensor;
  tensor_size : Tensor → nat → Z;
}.

(** A [ReXNetV1]: its [features], an [nn.Sequential]. *)
Record ReXNetV1 `{TorchNN} : Type := {
  features : list Layer;
}.

(** What [rexnetv1] and [torch.load] supply to the factory. *)
Class ReXNetLib `{TorchNN} : Type := {
  (** [ReXNetV1()] *)
  ReXNetV1_new : ReXNetV1;
  (** [backbone.load_state_dict(torch.load(path))] *)
  load_state_dict : pyval → ReXNetV1 → ReXNetV1;
}.

Record ReXNetSSDBackbone `{TorchNN} : Type := {
  backbone : list Layer;
  backbone_tails : list LinearBottleneck;
}.

(** [DefaultBoxGenerator(aspect_ratios, min_ratio, max_ratio)] *)
Record DefaultBoxGenerator : Type := {
  aspect_ratios : list (list Z);
  min_ratio : Q;
  max_ratio : Q;
}.

(** [partial(nn.BatchNorm2d, eps, momentum)] *)
Record NormLayer : Type := {
  eps : Q;
  momentum : Q;
}.

(** [SSDLiteHead(in_channels, num_anchors, num_classes, norm_layer)] *)
Record SSDLiteHead : Type := {
  head_in_channels : list Z;
  head_num_anchors : list Z;
  head_num_classes : pyval;
  head_norm_layer : NormLayer;
}.

(** [SSD(backbone, anchor_generator, size, num_classes, head=..., **kwargs)]:
    the detector is the record of what its constructor received. *)
Record SSD `{TorchNN} : Type := {
  ssd_backbone : ReXNetSSDBackbone;
  ssd_anchor_generator : DefaultBoxGenerator;
  ssd_size : Z * Z;
  ssd_num_classes : pyval;
  ssd_head : SSDLiteHead;
  ssd_kwargs : gmap string pyval;
}.

(** One box, [x1, y1, x2, y2], over the numbers of a tensor or array. *)
Record Box (Scalar : Type) : Type := {
  x1 : Scalar;
  y1 : Scalar;
  x2 : Scalar;
  y2 : Scalar;
}.
Arguments x1 {Scalar} _.
Arguments y1 {Scalar} _.
Arguments x2 {Scalar} _.
Arguments y2 {Scalar} _.

(** A target of the data set: [{'boxes': [M, 4], 'labels': [M]}]. *)
Record Target (Scalar : Type) : Type := {
  target_boxes : list (Box Scalar);
  target_labels : list Z;
}.
Arguments target_boxes {Scalar} _.
Arguments target_labels {Scalar} _.

(** A detection of the SSD in evaluation mode:
    [{'boxes': [N, 4], 'scores': [N], 'labels': [N]}]. *)
Record Detections (Scalar : Type) : Type := {
  det_boxes : list (Box Scalar);
  det_scores : list Scalar;
  det_labels : list Z;
}.
Arguments det_boxes {Scalar} _.
Arguments det_scores {Scalar} _.
Arguments det_labels {Scalar} _.

(** torchvision's detector and the numbers it produces.  In training mode
    (set by Lightning around [training_step]) the SSD maps images and
    targets to a dictionary of losses; in evaluation mode (set around
    [validation_step]) it maps images to detections. *)
Class Detection `{TorchNN} : Type := {
  Scalar : Type;
  (** an [int] as a number of an array or tensor *)
  of_int : Z → Scalar;
  (** [a + b] *)
  add : Scalar → Scalar → Scalar;
  ssd_losses : SSD → list Tensor → list (Target Scalar) → odict Scalar;
  ssd_detect : SSD → list Tensor → list (Detections Scalar);
}.

(** A two-dimensional numpy array, by rows. *)
Abbreviation array2 := (list (list Scalar)).

(** [MetricBuilder.build_evaluation_metric(name, async_mode, num_classes)] *)
Record MetricFn : Type := {
  metric_name : string;
  async_mode : bool;
  metric_num_classes : Z;
}.

(** The [mean_average_precision] library.  A metric object is its
    construction ([MetricFn]) and an accumulator; [metric_added] is the
    library's contract in terms of the pairs added since the last reset. *)
Class MetricLib `{Detection} : Type := {
  Accumulator : Type;
  metric_new : MetricFn → Accumulator;
  (** [metric_fn.reset()] *)
  metric_reset : MetricFn → Accumulator → Accumulator;
  (** [metric_fn.add(preds, gt)] *)
  metric_add : MetricFn → array2 → array2 → Accumulator → Accumulator;
  (** [metric_fn.value(iou_thresholds=t)] *)
  metric_value : MetricFn → Q → Accumulator → odict Scalar;
  metric_added : Accumulator → list (array2 * array2);
  metric_added_new : ∀ fn, metric_added (metric_new fn) = [];
  metric_added_reset : ∀ fn acc, metric_added (metric_reset fn acc) = [];
  metric_added_add : ∀ fn preds gt acc,
    metric_added (metric_add fn preds gt acc) = metric_added acc ++ [(preds, gt)];
  metric_value_added : ∀ fn t acc acc',
    metric_added acc = metric_added acc' →
    metric_value fn t acc = metric_value fn t acc';
  metric_value_mAP : ∀ fn t acc, is_Some (odict_get "mAP" (metric_value fn t acc));
}.

(** [torch.optim.Adam(params, lr)] *)
Record Adam : Type := {
  lr : Q;
}.

(* ===================================================================== *)
(** * Effects *)
(* ===================================================================== *)

(** What the module does to the outside, in the order it does it. *)
Inductive event `{Detection} : Type :=
  (** [self.log(name, value)] *)
  | EvLog (name : string) (value : Scalar)
  (** [logger.info(fmt % args)] *)
  | EvInfo (fmt : string) (args : list Scalar)
  (** [self.model(images)] and [self.model(images, targets)] *)
  | EvModel (model : SSD) (images : list Tensor) (targets : option (list (Target Scalar)))
  (** [SSD(...)] *)
  | EvNewSSD (model : SSD)
  (** [MetricBuilder.build_evaluation_metric(...)] *)
  | EvNewMetric (fn : MetricFn).

(** The accumulator behind [self.metric_fn] and the trace of events. *)
Record World `{MetricLib} : Type := {
  metric : Accumulator;
  trace : list event;
}.

Section Monad.
Context `{MetricLib}.

(** A computation changes the world and returns or raises; what it did
    before raising stays done. *)
Definition M (A : Type) : Type := World → result A * World.

#[global] Instance M_ret : MRet M := λ A a w, (Ok a, w).
#[global] Instance M_bind : MBind M := λ A B f m w,
  match m w with
  | (Ok a, w') => f a w'
  | (Raise e, w') => (Raise e, w')
  end.

Definition raise {A : Type} (e : exn) : M A := λ w, (Raise e, w).

Definition lift {A : Type} (r : result A) : M A := λ w, (r, w).

Definition emit (e : event) : M unit :=
  λ w, (Ok tt, {| metric := metric w; trace := trace w ++ [e] |}).

Definition get_metric : M Accumulator := λ w, (Ok (metric w), w).

Definition put_metric (acc : Accumulator) : M unit :=
  λ w, (Ok tt, {| metric := acc; trace := trace w |}).

(** [for a in l: body(a)] *)
Fixpoint for_each {A : Type} (body : A → M unit) (l : list A) : M unit :=
  match l with
  | [] => mret tt
  | a :: l' => body a;; for_each body l'
  end.
End Monad.

(* ===================================================================== *)
(** * numpy *)
(* ===================================================================== *)

Section Numpy.
Context `{Detection}.

(** A tensor of boxes as an array of shape [N, 4]. *)
Definition boxes_array (boxes : list (Box Scalar)) : array2 :=
  map (λ b, [x1 b; y1 b; x2 b; y2 b]) boxes.

(** [np.expand_dims(v, 1)]: shape [N] to shape [N, 1]. *)
Definition expand_dims_1 {A : Type} (v : list A) : list (list A) :=
  map (λ a, [a]) v.

(** An integer array among floating-point ones: its cells are converted. *)
Definition as_float (a : list (list Z)) : array2 := map (map of_int) a.

(** [np.zeros((rows, cols))] *)
Definition np_zeros (rows cols : nat) : array2 :=
  replicate rows (replicate cols (of_int 0)).

(** Two arrays side by side; they must have as many rows. *)
Fixpoint hstack (a b : array2) : result array2 :=
  match a, b with
  | [], [] => Ok []
  | ra :: a', rb :: b' => rest ← hstack a' b'; Ok ((ra ++ rb) :: rest)
  | _, _ => Raise ValueError
  end.

(** [np.concatenate(arrays, 1)] *)
Definition concatenate_1 (arrays : list array2) : result array2 :=
  match arrays with
  | [] => Raise ValueError
  | a :: rest => for_fold hstack rest a
  end.

(** [sum(values)]: from [0], left to right. *)
Definition sum (values : list Scalar) : Scalar :=
  fold_left add values (of_int 0).
End Numpy.

(* ===================================================================== *)
(** * [ReXNetSSDBackbone] *)
(* ===================================================================== *)

Section Backbone.
Context `{TorchNN}.

(** [nn.Sequential.forward] *)
Definition Sequential_forward (layers : list Layer) (x : Tensor) : Tensor :=
  fold_left (λ x layer, run_layer layer x) layers x.

(** [ReXNetSSDBackbone.__init__] *)
Definition ReXNetSSDBackbone_init (rexnetv1 : ReXNetV1) : ReXNetSSDBackbone :=
  {| backbone := slice_to (-9) (features rexnetv1);
     backbone_tails :=
       map (λ '(in_c, c, t, s, se, se_ratio),
              {| in_channels := in_c; channels := c; t_expand := t;
                 stride := s; use_se := se; se_ratio := se_ratio |})
           [ (128, 672, 1, 1, false, 12);
             (672, 480, 1, 2, false, 12);
             (480, 512, 1, 2, false, 12);
             (512, 256, 1, 2, false, 12);
             (256, 256, 1, 2, false, 12);
             (256, 128, 1, 1, false, 12) ] |}.

(** The body of the loop of [forward]: the state is [x] and [result_dicts]. *)
Definition ReXNetSSDBackbone_forward_tail (self : ReXNetSSDBackbone)
    (st : Tensor * odict Tensor) (idx : nat) : result (Tensor * odict Tensor) :=
  let '(x, result_dicts) := st in
  tail ← list_getitem (backbone_tails self) idx;
  let x := run_bottleneck tail x in
  Ok (x, odict_set (str idx) x result_dicts).

(** [ReXNetSSDBackbone.forward] *)
Definition ReXNetSSDBackbone_forward (self : ReXNetSSDBackbone) (x : Tensor)
    : result (odict Tensor) :=
  let x := Sequential_forward (backbone self) x in
  '(_, result_dicts) ←
    for_fold (ReXNetSSDBackbone_forward_tail self)
             (range (length (backbone_tails self))) (x, []);
  Ok result_dicts.

(** torchvision's [det_utils.retrieve_out_channels(model, size)]: the
    channel count of each feature map the backbone returns on a blank
    image. *)
Definition retrieve_out_channels (model : ReXNetSSDBackbone) (size : Z * Z)
    : result (list Z) :=
  features ← ReXNetSSDBackbone_forward model (zeros [1; 3; size.2; size.1]);
  Ok (map (λ x, tensor_size x 1) (odict_values features)).

(** torchvision's [DefaultBoxGenerator.num_anchors_per_location()] *)
Definition num_anchors_per_location (g : DefaultBoxGenerator) : list Z :=
  map (λ r, 2 + 2 * Z.of_nat (length r)) (aspect_ratios g).
End Backbone.

(* ===================================================================== *)
(** * The factory [ssdlite224_rexnet_v1] *)
(* ===================================================================== *)

(** The [defaults] dictionary of the factory. *)
Definition defaults : gmap string pyval :=
  {[ "score_thresh" := PyFloat (1 # 1000);
     "nms_thresh" := PyFloat (55 # 100);
     "detections_per_img" := PyInt 300;
     "topk_candidates" := PyInt 300;
     "image_mean" := PyList [PyFloat (5 # 10); PyFloat (5 # 10); PyFloat (5 # 10)];
     "image_std" := PyList [PyFloat (5 # 10); PyFloat (5 # 10); PyFloat (5 # 10)] ]}.

(** [ReXNetSSD]: the three attributes [__init__] assigns. *)
Record ReXNetSSD `{TorchNN} : Type := {
  model : option SSD;
  metric_fn : MetricFn;
  num_classes : pyval;
}.

Section Program.
Context `{MetricLib} `{!ReXNetLib}.

(** [logger.info(msg)] *)
Definition logger_info (fmt : string) (args : list Scalar) : M unit :=
  emit (EvInfo fmt args).

(** [self.log(name, value)] *)
Definition log (name : string) (value : Scalar) : M unit :=
  emit (EvLog name value).

(** [assert cond] *)
Definition py_assert (cond : bool) : M unit :=
  if cond then mret tt else raise AssertionError.

(** The call [SSD(backbone, anchor_generator, size, num_classes, head=head,
    **kwargs)]: a keyword given twice is a [TypeError] of the call itself.
    What the constructor makes of its arguments is torchvision's. *)
Definition SSD_new (backbone : ReXNetSSDBackbone) (anchor_generator : DefaultBoxGenerator)
    (size : Z * Z) (num_classes : pyval) (head : SSDLiteHead)
    (kwargs : gmap string pyval) : M SSD :=
  match kwargs !! "head" with
  | Some _ => raise TypeError
  | None =>
      let model :=
        {| ssd_backbone := backbone; ssd_anchor_generator := anchor_generator;
           ssd_size := size; ssd_num_classes := num_classes; ssd_head := head;
           ssd_kwargs := kwargs |} in
      emit (EvNewSSD model);; mret model
  end.

(** [ssdlite224_rexnet_v1(backbone_weight_path, is_freeze_base_net,
    num_classes=80, **kwargs)]; [num_classes] is [None] when the caller
    leaves it out. *)
Definition ssdlite224_rexnet_v1 (backbone_weight_path is_freeze_base_net : pyval)
    (num_classes : option pyval) (kwargs : gmap string pyval) : M SSD :=
  let num_classes := default (PyInt 80) num_classes in
  let backbone := ReXNetV1_new in
  backbone ←
    (if truthy is_freeze_base_net then
       logger_info "Disabling updates on backbone" [];;
       mret {| features := map requires_grad_false (features backbone) |}
     else
       logger_info "Enabling updates on backbone" [];;
       mret backbone);
  let backbone :=
    if is_none backbone_weight_path then backbone
    else load_state_dict backbone_weight_path backbone in
  let backbone := ReXNetSSDBackbone_init backbone in
  let norm_layer := {| eps := 1 # 1000; momentum := 3 # 100 |} in
  let size := (320, 320) in
  let anchor_generator :=
    {| aspect_ratios := map (λ _, [2; 3]) (range 6);
       min_ratio := 2 # 10; max_ratio := 95 # 100 |} in
  out_channels ← lift (retrieve_out_channels backbone size);
  let num_anchors := num_anchors_per_location anchor_generator in
  py_assert (Nat.eqb (length out_channels) (length (aspect_ratios anchor_generator)));;
  (* [{**defaults, **kwargs}]: the caller's entry wins *)
  let kwargs := kwargs ∪ defaults in
  SSD_new backbone anchor_generator size num_classes
    {| head_in_channels := out_channels; head_num_anchors := num_anchors;
       head_num_classes := num_classes; head_norm_layer := norm_layer |}
    kwargs.


(* ===================================================================== *)
(** * [ReXNetSSD] *)
(* ===================================================================== *)

(** [MetricBuilder.build_evaluation_metric(name, async_mode=..,
    num_classes=..)]: a metric object with a fresh accumulator. *)
Definition build_evaluation_metric (name : string) (async_mode : bool)
    (num_classes : Z) : M MetricFn :=
  let fn := {| metric_name := name; async_mode := async_mode;
               metric_num_classes := num_classes |} in
  emit (EvNewMetric fn);;
  put_metric (metric_new fn);;
  mret fn.

(** [ReXNetSSD.__init__(rexnet_ssd_model=None, num_classes=None)] *)
Definition ReXNetSSD_init (rexnet_ssd_model : option SSD) (num_classes : pyval)
    : M ReXNetSSD :=
  model ←
    (if bool_decide (rexnet_ssd_model = None) && is_none num_classes then
       m ← ssdlite224_rexnet_v1 PyNone PyNone (Some (PyInt 20)) ∅;
       mret (Some m)
     else mret rexnet_ssd_model);
  metric_fn ← build_evaluation_metric "map_2d" true 3;
  mret {| model := model; metric_fn := metric_fn; num_classes := num_classes |}.

(** [self.model(images, targets)] in training mode, [self.model(images)]
    in evaluation mode; [None] is not callable. *)
Definition model_losses (self : ReXNetSSD) (images : list Tensor)
    (targets : list (Target Scalar)) : M (odict Scalar) :=
  match model self with
  | None => raise TypeError
  | Some m => emit (EvModel m images (Some targets));; mret (ssd_losses m images targets)
  end.

Definition model_detect (self : ReXNetSSD) (images : list Tensor)
    : M (list (Detections Scalar)) :=
  match model self with
  | None => raise TypeError
  | Some m => emit (EvModel m images None);; mret (ssd_detect m images)
  end.

(** [self.metric_fn.reset()], [.add(preds, gt)], [.value(iou_thresholds=t)] *)
Definition metric_fn_reset (self : ReXNetSSD) : M unit :=
  acc ← get_metric; put_metric (metric_reset (metric_fn self) acc).

Definition metric_fn_add (self : ReXNetSSD) (preds gt : array2) : M unit :=
  acc ← get_metric; put_metric (metric_add (metric_fn self) preds gt acc).

Definition metric_fn_value (self : ReXNetSSD) (iou_thresholds : Q) : M (odict Scalar) :=
  acc ← get_metric; mret (metric_value (metric_fn self) iou_thresholds acc).

(** [ReXNetSSD.forward] *)
Definition forward (self : ReXNetSSD) (x : list Tensor) : M (list (Detections Scalar)) :=
  model_detect self x.

(** [ReXNetSSD.configure_optimizers] *)
Definition configure_optimizers (self : ReXNetSSD) : M Adam :=
  let optimizer := {| lr := 1 # 1000 |} in
  mret optimizer.

(** [ReXNetSSD.training_step] *)
Definition training_step (self : ReXNetSSD)
    (training_batch : list Tensor * list (Target Scalar)) (batch_idx : Z) : M Scalar :=
  let '(image_batch, annotations_batch) := training_batch in
  loss_dict ← model_losses self image_batch annotations_batch;
  bbox_regression ← lift (odict_getitem "bbox_regression" loss_dict);
  log "train_loss_bbox_regression" bbox_regression;;
  classification ← lift (odict_getitem "classification" loss_dict);
  log "train_loss_classification" classification;;
  let loss := sum (odict_values loss_dict) in
  log "train_loss" loss;;
  mret loss.

(** [ReXNetSSD.on_validation_epoch_start] *)
Definition on_validation_epoch_start (self : ReXNetSSD) : M unit :=
  metric_fn_reset self.

(** The body of the loop of [validation_step], for one index. *)
Definition validation_step_image (self : ReXNetSSD)
    (batched_result : list (Detections Scalar))
    (gt_boxes : list (list (Box Scalar))) (gt_labels : list (list Z))
    (idx : nat) : M unit :=
  single_result ← lift (list_getitem batched_result idx);
  gt_single_boxes ← lift (list_getitem gt_boxes idx);
  gt_single_labels ← lift (list_getitem gt_labels idx);
  let boxes := boxes_array (det_boxes single_result) in
  let scores := expand_dims_1 (det_scores single_result) in
  let labels := expand_dims_1 (det_labels single_result) in
  preds ← lift (concatenate_1 [boxes; as_float labels; scores]);
  let gt_single_labels := expand_dims_1 gt_single_labels in
  gt ← lift (concatenate_1 [boxes_array gt_single_boxes; as_float gt_single_labels;
                            np_zeros (length gt_single_boxes) 2]);
  metric_fn_add self preds gt.

(** [ReXNetSSD.validation_step] *)
Definition validation_step (self : ReXNetSSD)
    (val_batch : list Tensor * list (Target Scalar)) (batch_idx : Z) : M Scalar :=
  let '(image_batch, annotations_batch) := val_batch in
  let gt_boxes := map target_boxes annotations_batch in
  let gt_labels := map target_labels annotations_batch in
  batched_result ← model_detect self image_batch;
  for_each (validation_step_image self batched_result gt_boxes gt_labels)
           (range (length batched_result));;
  value ← metric_fn_value self (5 # 10);
  valid_mean_ap ← lift (odict_getitem "mAP" value);
  log "valid_mean_ap" valid_mean_ap;;
  mret valid_mean_ap.

(** [ReXNetSSD.on_validation_epoch_end] *)
Definition on_validation_epoch_end (self : ReXNetSSD) : M unit :=
  value ← metric_fn_value self (5 # 10);
  mAP ← lift (odict_getitem "mAP" value);
  logger_info "Validation mAP: %1.4f" [mAP].


(** ** The methods of the class, and Lightning's validation loop *)

Inductive method : Type :=
  | m_forward
  | m_configure_optimizers
  | m_training_step
  | m_on_validation_epoch_start
  | m_validation_step
  | m_on_validation_epoch_end.

(** A call of a method with its arguments. *)
Inductive method_call : Type :=
  | call_forward (x : list Tensor)
  | call_configure_optimizers
  | call_training_step (training_batch : list Tensor * list (Target Scalar)) (batch_idx : Z)
  | call_on_validation_epoch_start
  | call_validation_step (val_batch : list Tensor * list (Target Scalar)) (batch_idx : Z)
  | call_on_validation_epoch_end.

Definition method_of (c : method_call) : method :=
  match c with
  | call_forward _ => m_forward
  | call_configure_optimizers => m_configure_optimizers
  | call_training_step _ _ => m_training_step
  | call_on_validation_epoch_start => m_on_validation_epoch_start
  | call_validation_step _ _ => m_validation_step
  | call_on_validation_epoch_end => m_on_validation_epoch_end
  end.

Inductive returned : Type :=
  | ret_detections (r : list (Detections Scalar))
  | ret_optimizer (o : Adam)
  | ret_scalar (v : Scalar)
  | ret_none.

Definition invoke (self : ReXNetSSD) (c : method_call) : M returned :=
  match c with
  | call_forward x => r ← forward self x; mret (ret_detections r)
  | call_configure_optimizers => o ← configure_optimizers self; mret (ret_optimizer o)
  | call_training_step b i => v ← training_step self b i; mret (ret_scalar v)
  | call_on_validation_epoch_start => on_validation_epoch_start self;; mret ret_none
  | call_validation_step b i => v ← validation_step self b i; mret (ret_scalar v)
  | call_on_validation_epoch_end => on_validation_epoch_end self;; mret ret_none
  end.

(** One validation epoch as Lightning drives it: the start hook, one
    [validation_step] per batch with its index, the end hook. *)
Fixpoint validation_steps (self : ReXNetSSD)
    (batches : list (list Tensor * list (Target Scalar))) (batch_idx : Z)
    : M (list Scalar) :=
  match batches with
  | [] => mret []
  | b :: batches' =>
      v ← validation_step self b batch_idx;
      vs ← validation_steps self batches' (batch_idx + 1);
      mret (v :: vs)
  end.

Definition validation_epoch (self : ReXNetSSD)
    (batches : list (list Tensor * list (Target Scalar))) : M (list Scalar) :=
  on_validation_epoch_start self;;
  vs ← validation_steps self batches 0;
  on_validation_epoch_end self;;
  mret vs.
End Program.

(* ===================================================================== *)
(** * The properties in the specification's words *)
(* ===================================================================== *)

Section Specification.
Context `{MetricLib}.

(** The outputs of a chain of tail layers, each fed the output of the one
    before it; the first is fed [x]. *)
Fixpoint tail_outputs (tails : list LinearBottleneck) (x : Tensor) : list Tensor :=
  match tails with
  | [] => []
  | tail :: tails' =>
      let y := run_bottleneck tail x in
      y :: tail_outputs tails' y
  end.

(** The predictions of one image as rows [x1, y1, x2, y2, label, score]. *)
Definition prediction_rows (r : Detections Scalar) : array2 :=
  zip_with (λ bl s, [x1 bl.1; y1 bl.1; x2 bl.1; y2 bl.1; of_int bl.2; s])
           (zip (det_boxes r) (det_labels r)) (det_scores r).

(** The ground truth of one image as rows [x1, y1, x2, y2, label, 0, 0]. *)
Definition ground_truth_rows (t : Target Scalar) : array2 :=
  zip_with (λ b l, [x1 b; y1 b; x2 b; y2 b; of_int l; of_int 0; of_int 0])
           (target_boxes t) (target_labels t).

(** The detector's answer has the shapes torchvision documents. *)
Definition well_shaped_detections (r : Detections Scalar) : Prop :=
  length (det_scores r) = length (det_boxes r)
  ∧ length (det_labels r) = length (det_boxes r).

Definition well_shaped_target (t : Target Scalar) : Prop :=
  length (target_labels t) = length (target_boxes t).

(** The calls of the wrapped detector, the detectors constructed and the
    metrics built that a trace records. *)
Definition model_calls (tr : list event)
    : list (SSD * list Tensor * option (list (Target Scalar))) :=
  omap (λ e, match e with EvModel m x t => Some (m, x, t) | _ => None end) tr.

Definition ssd_built (tr : list event) : list SSD :=
  omap (λ e, match e with EvNewSSD m => Some m | _ => None end) tr.

Definition metrics_built (tr : list event) : list MetricFn :=
  omap (λ e, match e with EvNewMetric fn => Some fn | _ => None end) tr.

(** The methods whose run calls the wrapped detector, and the call each
    makes on a detector [m]. *)
Definition delegating : list method :=
  [m_forward; m_training_step; m_validation_step].

Definition delegated_call (m : SSD) (c : method_call)
    : option (SSD * list Tensor * option (list (Target Scalar))) :=
  match c with
  | call_forward x => Some (m, x, None)
  | call_training_step (images, annotations) _ => Some (m, images, Some annotations)
  | call_validation_step (images, _) _ => Some (m, images, None)
  | _ => None
  end.

(** Two worlds that differ at most in what the metric held before: the same
    trace, the same pairs in the accumulator. *)
Definition same_added (w1 w2 : World) : Prop :=
  trace w1 = trace w2 ∧ metric_added (metric w1) = metric_added (metric w2).

(** A computation that leaves the trace as it found it. *)
Definition silent {A : Type} (c : M A) : Prop := ∀ w, trace (c w).2 = trace w.

(** A computation that cannot tell apart two worlds with the same trace and
    the same pairs in the accumulator. *)
Definition blind {A : Type} (c : M A) : Prop :=
  ∀ w1 w2, same_added w1 w2 →
    (c w1).1 = (c w2).1 ∧ same_added (c w1).2 (c w2).2.
End Specification.

(* ===================================================================== *)
(** * [collate_batch] *)
(* ===================================================================== *)

Section Collate.
Context {A : Type}.

(** [zip( *rows )] read as lists: one tuple per turn, made of the next item
    of every row, until a row is exhausted; [fuel] bounds the turns. *)
Fixpoint zip_rows (fuel : nat) (rows : list (list A)) : list (list A) :=
  match fuel with
  | O => []
  | S fuel' =>
      match mapM head rows with
      | Some items => items :: zip_rows fuel' (map tail rows)
      | None => []
      end
  end.

(** No row, no tuple; otherwise no more turns than the first row is long. *)
Definition zip_star (rows : list (list A)) : list (list A) :=
  match rows with
  | [] => []
  | row :: _ => zip_rows (length row) rows
  end.

(** [collate_batch(batch)]: [tuple(zip( *batch ))]; a sample is a tuple. *)
Definition collate_batch (batch : list (list A)) : list (list A) :=
  zip_star batch.

(** [a, b = t]: the tuple must hold exactly two items. *)
Definition unpack_pair (t : list (list A)) : result (list A * list A) :=
  match t with
  | [a; b] => Ok (a, b)
  | _ => Raise ValueError
  end.
End Collate.

(* ===================================================================== *)
(** * Batches and epochs in the specification's words *)
(* ===================================================================== *)

Section MoreSpecification.
Context `{MetricLib}.

(** The pairs one batch gives the metric: detection [i] with target [i]. *)
Definition batch_pairs (m : SSD) (b : list Tensor * list (Target Scalar))
    : list (array2 * array2) :=
  zip_with (λ r t, (prediction_rows r, ground_truth_rows t)) (ssd_detect m b.1) b.2.

(** A batch the detector [m] answers as C3 supposes. *)
Definition well_formed_batch (m : SSD) (b : list Tensor * list (Target Scalar)) : Prop :=
  length (ssd_detect m b.1) = length b.1
  ∧ length b.2 = length b.1
  ∧ Forall well_shaped_detections (ssd_detect m b.1)
  ∧ Forall well_shaped_target b.2.

End MoreSpecification.

(* ===================================================================== *)
(** * Proof automation *)
(* ===================================================================== *)

(** Runs the factory, one branch of its two tests chosen, up to the call of
    [SSD]: the log line, the output channels, the assertion.  [six] is the
    fact that the backbone has six output channels. *)
Ltac run_to_SSD_new six :=
  unfold mbind, M_bind, mret, M_ret, logger_info, emit, lift, py_assert;
  cbn -[union defaults ReXNetSSDBackbone_init retrieve_out_channels SSD_new];
  match goal with
  | |- context [retrieve_out_channels (ReXNetSSDBackbone_init ?r) ?s] =>
      let oc := fresh "oc" in
      let Hoc := fresh "Hoc" in
      destruct (six r s) as (oc & -> & Hoc);
      rewrite Hoc; cbn -[union defaults ReXNetSSDBackbone_init SSD_new]
  end.

(* ===================================================================== *)
(** * A small concrete model of the collaborators *)
(* ===================================================================== *)

Module Toy.

(** A tensor is the list of the layers it went through. *)
Definition torch : TorchNN :=
  {| Tensor := list Z;
     Layer := Z;
     run_layer := λ layer x, x ++ [layer];
     run_bottleneck := λ tail x, x ++ [channels tail];
     requires_grad_false := λ layer, - layer;
     zeros := λ _, [];
     tensor_size := λ x _, List.last x 0 |}.
#[local] Existing Instance torch.

Definition rexnet : ReXNetLib :=
  {| ReXNetV1_new := {| features := map Z.of_nat (seq 1 23) |};
     load_state_dict := λ _ r, r |}.
#[local] Existing Instance rexnet.

(** A detector that finds one box of label 1 and score 9 in every image. *)
Definition detection : Detection :=
  {| Scalar := Z;
     of_int := λ n, n;
     add := Z.add;
     ssd_losses := λ _ _ _, [("bbox_regression"%string, 36); ("classification"%string, 5)];
     ssd_detect := λ _ images,
       map (λ _, {| det_boxes := [ {| x1 := 1; y1 := 2; x2 := 3; y2 := 4 |} ];
                    det_scores := [9]; det_labels := [1] |}) images |}.
#[local] Existing Instance detection.

(** A metric whose value is the number of pairs it holds. *)
Definition metrics : MetricLib :=
  {| Accumulator := list (list (list Z) * list (list Z));
     metric_new := λ _, [];
     metric_reset := λ _ _, [];
     metric_add := λ _ preds gt acc, acc ++ [(preds, gt)];
     metric_value := λ _ _ acc, [("mAP"%string, Z.of_nat (length acc))];
     metric_added := λ acc, acc;
     metric_added_new := λ _, eq_refl;
     metric_added_reset := λ _ _, eq_refl;
     metric_added_add := λ _ _ _ _, eq_refl;
     metric_value_added := λ fn t acc acc' (E : acc = acc'),
       f_equal (λ a, [("mAP"%string, Z.of_nat (length a))]) E;
     metric_value_mAP := λ _ _ acc, ex_intro _ (Z.of_nat (length acc)) eq_refl |}.
#[local] Existing Instance metrics.

Definition world : World :=
  {| metric := []; trace := [] |}.

Definition ssd (n : Z) : SSD :=
  {| ssd_backbone := ReXNetSSDBackbone_init ReXNetV1_new;
     ssd_anchor_generator := {| aspect_ratios := []; min_ratio := 0; max_ratio := 1 |};
     ssd_size := (320, 320);
     ssd_num_classes := PyInt n;
     ssd_head := {| head_in_channels := []; head_num_anchors := [];
                    head_num_classes := PyInt n;
                    head_norm_layer := {| eps := 0; momentum := 0 |} |};
     ssd_kwargs := ∅ |}.

Definition lightning (n : Z) : ReXNetSSD :=
  {| model := Some (ssd n);
     metric_fn := {| metric_name := "map_2d"; async_mode := true;
                     metric_num_classes := 3 |};
     num_classes := PyInt n |}.

Definition target : Target Z :=
  {| target_boxes := [ {| x1 := 0; y1 := 0; x2 := 5; y2 := 5 |} ];
     target_labels := [2] |}.

End Toy.

(** A second small model: the detector's losses lack [classification], and
    its detections hold a box without a score. *)
Module Toy2.
#[local] Existing Instance Toy.torch.

Definition detection : Detection :=
  {| Scalar := Z;
     of_int := λ n, n;
     add := Z.add;
     ssd_losses := λ _ _ _, [("bbox_regression"%string, 36)];
     ssd_detect := λ _ images,
       map (λ _, {| det_boxes := [ {| x1 := 1; y1 := 2; x2 := 3; y2 := 4 |} ];
                    det_scores := []; det_labels := [1] |}) images |}.
#[local] Existing Instance detection.

Definition metrics : MetricLib :=
  {| Accumulator := list (list (list Z) * list (list Z));
     metric_new := λ _, [];
     metric_reset := λ _ _, [];
     metric_add := λ _ preds gt acc, acc ++ [(preds, gt)];
     metric_value := λ _ _ acc, [("mAP"%string, Z.of_nat (length acc))];
     metric_added := λ acc, acc;
     metric_added_new := λ _, eq_refl;
     metric_added_reset := λ _ _, eq_refl;
     metric_added_add := λ _ _ _ _, eq_refl;
     metric_value_added := λ fn t acc acc' (E : acc = acc'),
       f_equal (λ a, [("mAP"%string, Z.of_nat (length a))]) E;
     metric_value_mAP := λ _ _ acc, ex_intro _ (Z.of_nat (length acc)) eq_refl |}.
#[local] Existing Instance metrics.

Definition world : World :=
  {| metric := []; trace := [] |}.

End Toy2.

(* ===================================================================== *)
(** * Facts about the Python runtime *)
(* ===================================================================== *)

Lemma str_inj (i j : nat) : str i = str j → i = j.
Proof. unfold str. apply (inj pretty). Qed.

Lemma slice_to_negative {A : Type} (k : nat) (l : list A) :
  (0 < k)%nat → slice_to (- Z.of_nat k) l = take (length l - k) l.
Proof.
  intros Hk. unfold slice_to.
  destruct (Z.ltb_spec (- Z.of_nat k) 0) as [_|Hge]; [|lia].
  f_equal. lia.
Qed.

Lemma slice_to_negative_split {A : Type} (k : nat) (l : list A) :
  (0 < k)%nat →
  l = slice_to (- Z.of_nat k) l ++ drop (length l - k) l
  ∧ length (drop (length l - k) l) = (length l `min` k)%nat.
Proof.
  intros Hk. rewrite slice_to_negative by done. split.
  - by rewrite take_drop.
  - rewrite length_drop. lia.
Qed.

Lemma odict_get_app_fresh {V : Type} (k : string) (d d' : odict V) :
  k ∉ odict_keys d → odict_get k (d ++ d') = odict_get k d'.
Proof.
  unfold odict_keys. induction d as [|[k' v'] d IH]; intros Hk; [done|].
  rewrite fmap_cons, not_elem_of_cons in Hk. destruct Hk as [Hne Hk].
  simpl. rewrite decide_False by done. by apply IH.
Qed.

Lemma odict_set_fresh {V : Type} (k : string) (v : V) (d : odict V) :
  k ∉ odict_keys d → odict_set k v d = d ++ [(k, v)].
Proof.
  unfold odict_keys. induction d as [|[k' v'] d IH]; intros Hk; [done|].
  rewrite fmap_cons, not_elem_of_cons in Hk. destruct Hk as [Hne Hk].
  simpl. rewrite decide_False by done. by rewrite IH.
Qed.

Lemma odict_keys_app {V : Type} (d d' : odict V) :
  odict_keys (d ++ d') = odict_keys d ++ odict_keys d'.
Proof. unfold odict_keys. apply fmap_app. Qed.

Lemma str_fresh (k : nat) : str k ∉ str <$> seq 0 k.
Proof.
  intros Hin. apply list_elem_of_fmap in Hin as (j & Heq & Hj).
  apply str_inj in Heq. subst j. apply elem_of_seq in Hj. lia.
Qed.

(* ===================================================================== *)
(** * The backbone *)
(* ===================================================================== *)

Section BackboneFacts.
Context `{TorchNN}.

(** The loop of [forward] from index [k] on: the dictionary gains one entry
    per remaining tail layer, keyed by the layer's index, in order. *)
Lemma ReXNetSSDBackbone_forward_loop (self : ReXNetSSDBackbone) (m : nat) :
  ∀ (k : nat) (x : Tensor) (d : odict Tensor),
    (k + m)%nat = length (backbone_tails self) →
    odict_keys d = str <$> seq 0 k →
    ∃ x', for_fold (ReXNetSSDBackbone_forward_tail self) (seq k m) (x, d)
          = Ok (x', d ++ zip (str <$> seq k m)
                             (tail_outputs (drop k (backbone_tails self)) x)).
Proof.
  induction m as [|m IH]; intros k x d Hlen Hkeys.
  - exists x. simpl. by rewrite app_nil_r.
  - destruct (lookup_lt_is_Some_2 (backbone_tails self) k) as [tail Htail]; [lia|].
    rewrite (drop_S _ _ _ Htail). simpl.
    unfold list_getitem. rewrite Htail. simpl.
    rewrite odict_set_fresh by (rewrite Hkeys; apply str_fresh).
    destruct (IH (S k) (run_bottleneck tail x) (d ++ [(str k, run_bottleneck tail x)]))
      as [x' Hx']; [lia| |].
    + by rewrite odict_keys_app, Hkeys, seq_S, fmap_app.
    + exists x'. rewrite Hx'. by rewrite <- app_assoc.
Qed.

(** For any backbone, [forward] returns the outputs of the chain of tails
    under the keys [str(0)], [str(1)], ... *)
Lemma ReXNetSSDBackbone_forward_chain (self : ReXNetSSDBackbone) (x : Tensor) :
  ReXNetSSDBackbone_forward self x
  = Ok (zip (str <$> range (length (backbone_tails self)))
            (tail_outputs (backbone_tails self) (Sequential_forward (backbone self) x))).
Proof.
  unfold ReXNetSSDBackbone_forward, range.
  destruct (ReXNetSSDBackbone_forward_loop self (length (backbone_tails self)) 0
              (Sequential_forward (backbone self) x) []) as [x' Hx']; [done|done|].
  rewrite Hx'. done.
Qed.


(** C1: for every ReXNetV1 [r], [ReXNetSSDBackbone(r)] keeps [r.features]
    without its last nine layers ([r.features[:-9]]) as the backbone and
    holds exactly six tail layers, with (in_channels, channels) equal to
    (128,672), (672,480), (480,512), (512,256), (256,256), (256,128),
    strides 1,2,2,2,2,1 and no squeeze-excitation. *)
Theorem ReXNetSSDBackbone_init_layers (r : ReXNetV1) :
  let self := ReXNetSSDBackbone_init r in
  backbone self = take (length (features r) - 9) (features r)
  ∧ (∃ removed, features r = backbone self ++ removed
                ∧ length removed = (length (features r) `min` 9)%nat)
  ∧ length (backbone_tails self) = 6%nat
  ∧ map (λ tail, (in_channels tail, channels tail)) (backbone_tails self)
    = [(128, 672); (672, 480); (480, 512); (512, 256); (256, 256); (256, 128)]
  ∧ map stride (backbone_tails self) = [1; 2; 2; 2; 2; 1]
  ∧ map use_se (backbone_tails self) = [false; false; false; false; false; false].
Proof.
  intros self. subst self. cbn [ReXNetSSDBackbone_init backbone backbone_tails].
  change (-9) with (- Z.of_nat 9).
  split; [apply slice_to_negative; lia|].
  split; [|by repeat split].
  exists (drop (length (features r) - 9) (features r)).
  apply slice_to_negative_split. lia.
Qed.

(** C2: for every input [x], [forward] applies the truncated backbone, then
    the six tail layers one after the other, and returns a dictionary of
    exactly six entries, where key [str(i)] holds the output of tail [i]. *)
Theorem ReXNetSSDBackbone_forward_six (r : ReXNetV1) (x : Tensor) :
  let self := ReXNetSSDBackbone_init r in
  let outputs :=
    tail_outputs (backbone_tails self) (Sequential_forward (backbone self) x) in
  ∃ d, ReXNetSSDBackbone_forward self x = Ok d
       ∧ length d = 6%nat
       ∧ odict_keys d = ["0"; "1"; "2"; "3"; "4"; "5"]%string
       ∧ odict_values d = outputs
       ∧ Forall (λ i, is_Some (outputs !! i) ∧ odict_get (str i) d = outputs !! i)
                (range 6).
Proof.
  intros self outputs. eexists. split; [apply ReXNetSSDBackbone_forward_chain|].
  fold outputs. repeat split.
  repeat constructor; eauto.
Qed.
End BackboneFacts.

(* ===================================================================== *)
(** * The monad *)
(* ===================================================================== *)

Section MonadFacts.
Context `{MetricLib}.

Lemma bind_ok {A B : Type} (c : M A) (f : A → M B) (w w' : World) (a : A) :
  c w = (Ok a, w') → (c ≫= f) w = f a w'.
Proof. intros Hc. unfold mbind, M_bind. by rewrite Hc. Qed.

Lemma bind_raise {A B : Type} (c : M A) (f : A → M B) (w w' : World) (e : exn) :
  c w = (Raise e, w') → (c ≫= f) w = (Raise e, w').
Proof. intros Hc. unfold mbind, M_bind. by rewrite Hc. Qed.

Lemma silent_ret {A : Type} (a : A) : silent (mret a).
Proof. by intros w. Qed.

Lemma silent_lift {A : Type} (r : result A) : silent (lift r).
Proof. by intros w. Qed.

Lemma silent_bind {A B : Type} (c : M A) (f : A → M B) :
  silent c → (∀ a, silent (f a)) → silent (c ≫= f).
Proof.
  intros Hc Hf w. specialize (Hc w). unfold mbind, M_bind.
  destruct (c w) as [[a|e] w']; simpl in *; [|done].
  by rewrite Hf.
Qed.

Lemma silent_for_each {A : Type} (body : A → M unit) (l : list A) :
  (∀ a, silent (body a)) → silent (for_each body l).
Proof.
  intros Hbody. induction l as [|a l IH]; simpl.
  - apply silent_ret.
  - apply silent_bind; [apply Hbody|]. by intros _.
Qed.
End MonadFacts.

Section Training.
Context `{MetricLib}.

(** C4: when the wrapped detector returns a loss dictionary holding
    [bbox_regression] and [classification], [training_step] makes that one
    call of the detector, logs the two losses and then their total, and
    returns the sum of all values of the dictionary. *)
Theorem training_step_logs_and_sums (self : ReXNetSSD) (m : SSD)
    (images : list Tensor) (annotations : list (Target Scalar)) (batch_idx : Z)
    (w : World) (bbox cls : Scalar) :
  model self = Some m →
  odict_get "bbox_regression" (ssd_losses m images annotations) = Some bbox →
  odict_get "classification" (ssd_losses m images annotations) = Some cls →
  let loss := sum (odict_values (ssd_losses m images annotations)) in
  training_step self (images, annotations) batch_idx w
  = (Ok loss,
     {| metric := metric w;
        trace := trace w ++ [EvModel m images (Some annotations);
                             EvLog "train_loss_bbox_regression" bbox;
                             EvLog "train_loss_classification" cls;
                             EvLog "train_loss" loss] |}).
Proof.
  intros Hm Hbbox Hcls loss.
  unfold training_step, model_losses, odict_getitem. rewrite Hm.
  unfold mbind, M_bind, lift, log, emit. simpl.
  rewrite Hbbox. simpl. rewrite Hcls. simpl.
  by rewrite <- !app_assoc.
Qed.
End Training.

(* ===================================================================== *)
(** * Arrays *)
(* ===================================================================== *)

Section NumpyFacts.
Context `{Detection}.

Lemma hstack_zip (a b : array2) :
  length a = length b → hstack a b = Ok (zip_with app a b).
Proof.
  revert b. induction a as [|ra a IH]; intros [|rb b] Hlen; try done.
  simpl in *. rewrite IH by lia. done.
Qed.

Lemma hstack_mismatch (a b : array2) :
  length a ≠ length b → hstack a b = Raise ValueError.
Proof.
  revert b. induction a as [|ra a IH]; intros [|rb b] Hlen; try done.
  simpl in *. rewrite IH by lia. done.
Qed.

Lemma prediction_rows_concat (boxes : list (Box Scalar)) (labels : list Z)
    (scores : list Scalar) :
  length scores = length boxes → length labels = length boxes →
  zip_with app (zip_with app (boxes_array boxes) (as_float (expand_dims_1 labels)))
               (expand_dims_1 scores)
  = zip_with (λ bl s, [x1 bl.1; y1 bl.1; x2 bl.1; y2 bl.1; of_int bl.2; s])
             (zip boxes labels) scores.
Proof.
  revert labels scores.
  induction boxes as [|b boxes IH]; intros [|l labels] [|s scores] Hs Hl; try done.
  simpl in *. f_equal. apply IH; lia.
Qed.

Lemma ground_truth_rows_concat (boxes : list (Box Scalar)) (labels : list Z) :
  length labels = length boxes →
  zip_with app (zip_with app (boxes_array boxes) (as_float (expand_dims_1 labels)))
               (np_zeros (length boxes) 2)
  = zip_with (λ b l, [x1 b; y1 b; x2 b; y2 b; of_int l; of_int 0; of_int 0])
             boxes labels.
Proof.
  revert labels.
  induction boxes as [|b boxes IH]; intros [|l labels] Hl; try done.
  simpl in *. f_equal. apply IH; lia.
Qed.

Lemma length_boxes_array (boxes : list (Box Scalar)) :
  length (boxes_array boxes) = length boxes.
Proof. apply length_map. Qed.

Lemma length_as_float_expand (labels : list Z) :
  length (as_float (expand_dims_1 labels)) = length labels.
Proof. unfold as_float, expand_dims_1. by rewrite !length_map. Qed.

Lemma length_expand_dims_1 {A : Type} (v : list A) :
  length (expand_dims_1 v) = length v.
Proof. apply length_map. Qed.

Lemma length_np_zeros (rows cols : nat) : length (np_zeros rows cols) = rows.
Proof. apply length_replicate. Qed.

(** What the two [np.concatenate] calls of [validation_step] compute. *)
Lemma concatenate_predictions (r : Detections Scalar) :
  well_shaped_detections r →
  concatenate_1 [boxes_array (det_boxes r); as_float (expand_dims_1 (det_labels r));
                 expand_dims_1 (det_scores r)]
  = Ok (prediction_rows r).
Proof.
  intros [Hs Hl]. unfold concatenate_1, prediction_rows. simpl.
  rewrite hstack_zip by (by rewrite length_boxes_array, length_as_float_expand).
  simpl. rewrite hstack_zip.
  - by rewrite prediction_rows_concat.
  - rewrite length_zip_with, length_boxes_array, length_as_float_expand,
      length_expand_dims_1. lia.
Qed.

Lemma concatenate_ground_truth (t : Target Scalar) :
  well_shaped_target t →
  concatenate_1 [boxes_array (target_boxes t); as_float (expand_dims_1 (target_labels t));
                 np_zeros (length (target_boxes t)) 2]
  = Ok (ground_truth_rows t).
Proof.
  intros Hl. unfold well_shaped_target in Hl. unfold concatenate_1, ground_truth_rows. simpl.
  rewrite hstack_zip by (by rewrite length_boxes_array, length_as_float_expand).
  simpl. rewrite hstack_zip.
  - by rewrite ground_truth_rows_concat.
  - rewrite length_zip_with, length_boxes_array, length_as_float_expand,
      length_np_zeros. lia.
Qed.

Lemma prediction_rows_shape (r : Detections Scalar) :
  well_shaped_detections r →
  length (prediction_rows r) = length (det_boxes r)
  ∧ Forall (λ row, length row = 6%nat) (prediction_rows r).
Proof.
  intros [Hs Hl]. unfold prediction_rows. split.
  - rewrite length_zip_with, length_zip. lia.
  - generalize (zip (det_boxes r) (det_labels r)) (det_scores r).
    intros l. induction l as [|bl l IH]; intros [|s ss]; simpl; constructor; auto.
Qed.

Lemma ground_truth_rows_shape (t : Target Scalar) :
  well_shaped_target t →
  length (ground_truth_rows t) = length (target_boxes t)
  ∧ Forall (λ row, length row = 7%nat) (ground_truth_rows t).
Proof.
  intros Hl. unfold well_shaped_target in Hl. unfold ground_truth_rows. split.
  - rewrite length_zip_with. lia.
  - generalize (target_boxes t) (target_labels t).
    intros bs. induction bs as [|b bs IH]; intros [|l ls]; simpl; constructor; auto.
Qed.
End NumpyFacts.

(* ===================================================================== *)
(** * [validation_step] *)
(* ===================================================================== *)

Section Validation.
Context `{MetricLib}.

(** One turn of the loop on well-shaped data: one pair goes to the metric. *)
Lemma validation_step_image_adds (self : ReXNetSSD)
    (results : list (Detections Scalar)) (annotations : list (Target Scalar))
    (idx : nat) (r : Detections Scalar) (t : Target Scalar) (w : World) :
  results !! idx = Some r → annotations !! idx = Some t →
  well_shaped_detections r → well_shaped_target t →
  validation_step_image self results (map target_boxes annotations)
    (map target_labels annotations) idx w
  = (Ok tt,
     {| metric := metric_add (metric_fn self) (prediction_rows r) (ground_truth_rows t)
                    (metric w);
        trace := trace w |}).
Proof.
  intros Hr Ht Wr Wt. unfold validation_step_image, list_getitem.
  rewrite Hr, !list_lookup_fmap, Ht.
  unfold mbind, M_bind, lift. cbn -[concatenate_1].
  rewrite (concatenate_predictions r Wr), (concatenate_ground_truth t Wt).
  done.
Qed.

Lemma validation_step_loop (self : ReXNetSSD)
    (results : list (Detections Scalar)) (annotations : list (Target Scalar)) (n : nat) :
  length annotations = length results →
  Forall well_shaped_detections results →
  Forall well_shaped_target annotations →
  ∀ (k : nat) (w : World),
    (k + n)%nat = length results →
    ∃ w', for_each (validation_step_image self results (map target_boxes annotations)
                      (map target_labels annotations)) (seq k n) w = (Ok tt, w')
          ∧ trace w' = trace w
          ∧ metric_added (metric w')
            = metric_added (metric w)
              ++ zip_with (λ r t, (prediction_rows r, ground_truth_rows t))
                          (drop k results) (drop k annotations).
Proof.
  intros Hlen Wr Wt. induction n as [|n IH]; intros k w Hk.
  - exists w. rewrite drop_ge by lia. simpl. by rewrite app_nil_r.
  - destruct (lookup_lt_is_Some_2 results k) as [r Hr]; [lia|].
    destruct (lookup_lt_is_Some_2 annotations k) as [t Ht]; [lia|].
    cbn [seq for_each].
    erewrite bind_ok; last by
      (apply validation_step_image_adds;
         [done|done|by eapply Forall_lookup_1|by eapply Forall_lookup_1]).
    edestruct IH as (w' & Hrun & Htr & Hadd); [|exists w'; split; [exact Hrun|]]; [lia|].
    split; [by rewrite Htr|].
    rewrite Hadd. cbn [metric]. rewrite metric_added_add.
    rewrite (drop_S _ _ _ Hr), (drop_S _ _ _ Ht). cbn [zip_with].
    by rewrite <- app_assoc.
Qed.

(** C3: [validation_step] hands the metric one (predictions, ground truth)
    pair per image of the batch -- predictions in rows
    [x1, y1, x2, y2, label, score], ground truth in rows
    [x1, y1, x2, y2, label, 0, 0] -- and returns the [mAP] entry of the
    metric's value at IoU threshold 0.5.  The batch pairs every image with
    a target, and the detector answers as torchvision documents: one
    detection per image, as many scores and labels as boxes. *)
Theorem validation_step_adds_one_pair_per_image (self : ReXNetSSD) (m : SSD)
    (images : list Tensor) (annotations : list (Target Scalar)) (batch_idx : Z)
    (w : World) :
  model self = Some m →
  length (ssd_detect m images) = length images →
  length annotations = length images →
  Forall well_shaped_detections (ssd_detect m images) →
  Forall well_shaped_target annotations →
  let pairs := zip_with (λ r t, (prediction_rows r, ground_truth_rows t))
                        (ssd_detect m images) annotations in
  ∃ (v : Scalar) (w' : World),
    validation_step self (images, annotations) batch_idx w = (Ok v, w')
    ∧ metric_added (metric w') = metric_added (metric w) ++ pairs
    ∧ length pairs = length images
    ∧ Forall (λ pg, Forall (λ row, length row = 6%nat) pg.1
                    ∧ Forall (λ row, length row = 7%nat) pg.2) pairs
    ∧ odict_get "mAP" (metric_value (metric_fn self) (5 # 10) (metric w')) = Some v
    ∧ trace w' = trace w ++ [EvModel m images None; EvLog "valid_mean_ap" v].
Proof.
  intros Hm Hres Hann Wr Wt pairs.
  set (w0 := {| metric := metric w; trace := trace w ++ [EvModel m images None] |}).
  destruct (validation_step_loop self (ssd_detect m images) annotations
              (length (ssd_detect m images)) ltac:(lia) Wr Wt 0%nat w0 eq_refl)
    as (w1 & Hloop & Htr & Hadd).
  destruct (metric_value_mAP (metric_fn self) (5 # 10) (metric w1)) as [v Hv].
  exists v, {| metric := metric w1; trace := trace w1 ++ [EvLog "valid_mean_ap" v] |}.
  split; [|split; [|split; [|split; [|split]]]].
  - unfold validation_step, model_detect. rewrite Hm.
    unfold mbind at 1. unfold M_bind at 1. simpl.
    fold w0. unfold range.
    erewrite bind_ok by exact Hloop.
    unfold metric_fn_value, get_metric, odict_getitem, lift, log, emit,
      mbind, M_bind, mret, M_ret. simpl.
    by rewrite Hv.
  - exact Hadd.
  - subst pairs. rewrite length_zip_with. lia.
  - subst pairs. clear -Wr Wt.
    revert annotations Wt. induction Wr as [|r rs Wr1 Wr IH]; intros [|t ts] Wt; simpl;
      try constructor.
    + split; [by apply prediction_rows_shape|apply ground_truth_rows_shape].
      by eapply Forall_inv.
    + apply IH. by eapply Forall_inv_tail.
  - exact Hv.
  - simpl. rewrite Htr. subst w0. simpl. by rewrite <- app_assoc.
Qed.
End Validation.

(* ===================================================================== *)
(** * Which methods call the detector *)
(* ===================================================================== *)

Section Delegation.
Context `{MetricLib}.

Lemma silent_get_metric : silent get_metric.
Proof. by intros w. Qed.

Lemma silent_put_metric (acc : Accumulator) : silent (put_metric acc).
Proof. by intros w. Qed.

Lemma silent_metric_fn_add (self : ReXNetSSD) (preds gt : array2) :
  silent (metric_fn_add self preds gt).
Proof. by intros w. Qed.

Lemma silent_metric_fn_value (self : ReXNetSSD) (t : Q) :
  silent (metric_fn_value self t).
Proof. by intros w. Qed.

Lemma silent_validation_step_image (self : ReXNetSSD)
    (results : list (Detections Scalar)) (gt_boxes : list (list (Box Scalar)))
    (gt_labels : list (list Z)) (idx : nat) :
  silent (validation_step_image self results gt_boxes gt_labels idx).
Proof.
  unfold validation_step_image.
  repeat (apply silent_bind; [apply silent_lift|intros ?]).
  apply silent_metric_fn_add.
Qed.

Lemma model_calls_app (tr tr' : list event) :
  model_calls (tr ++ tr') = model_calls tr ++ model_calls tr'.
Proof. apply omap_app. Qed.

(** The trace a method leaves: the old one, then its call of the detector
    if it makes one, then events that are no calls of the detector. *)
Lemma training_step_calls (self : ReXNetSSD)
    (b : list Tensor * list (Target Scalar)) (i : Z) (w : World) :
  model_calls (trace (training_step self b i w).2)
  = model_calls (trace w)
    ++ match model self with
       | Some m => [(m, b.1, Some b.2)]
       | None => []
       end.
Proof.
  destruct b as [images annotations]. unfold training_step, model_losses.
  destruct (model self) as [m|]; [|by rewrite app_nil_r].
  unfold odict_getitem, mbind, M_bind, lift, log, emit. simpl.
  destruct (odict_get "bbox_regression" _); simpl;
    [destruct (odict_get "classification" _); simpl|];
    rewrite ?model_calls_app; simpl; by rewrite ?app_nil_r.
Qed.

Lemma validation_step_calls (self : ReXNetSSD)
    (b : list Tensor * list (Target Scalar)) (i : Z) (w : World) :
  model_calls (trace (validation_step self b i w).2)
  = model_calls (trace w)
    ++ match model self with
       | Some m => [(m, b.1, None)]
       | None => []
       end.
Proof.
  destruct b as [images annotations]. unfold validation_step, model_detect.
  destruct (model self) as [m|]; [|by rewrite app_nil_r].
  unfold mbind at 1. unfold M_bind at 1. simpl.
  set (w0 := {| metric := metric w; trace := trace w ++ [EvModel m images None] |}).
  set (loop := for_each _ _).
  assert (Hloop : trace (loop w0).2 = trace w0).
  { apply silent_for_each. intros idx. apply silent_validation_step_image. }
  unfold mbind, M_bind.
  destruct (loop w0) as [[[]|e] w1]; simpl in *.
  - unfold metric_fn_value, get_metric, odict_getitem, lift, log, emit. simpl.
    destruct (odict_get "mAP" _); simpl; rewrite Hloop; subst w0; simpl;
      rewrite ?model_calls_app; simpl; by rewrite ?app_nil_r.
  - rewrite Hloop. subst w0. simpl. by rewrite model_calls_app.
Qed.

(** C6, as the code has it: the training/validation lifecycle of
    [ReXNetSSD] runs the wrapped detector in exactly three methods --
    [forward], [training_step] and [validation_step] -- each calling it once
    per run with the batch it was given; the other methods
    ([configure_optimizers] and the epoch hooks) never call it.  What
    [forward] returns is the detector's answer; what the two step methods
    do with theirs is C3 and C4. *)
Theorem lifecycle_delegates_to_detector (self : ReXNetSSD) (c : method_call) (w : World) :
  model_calls (trace (invoke self c w).2)
  = model_calls (trace w)
    ++ match model self with
       | Some m => option_list (delegated_call m c)
       | None => []
       end
  ∧ (∀ m, is_Some (delegated_call m c) ↔ method_of c ∈ delegating)
  ∧ length delegating = 3%nat
  ∧ (∀ x, (forward self x w).1
          = match model self with
            | Some m => Ok (ssd_detect m x)
            | None => Raise TypeError
            end).
Proof.
  split; [|split; [|split; [done|]]].
  - destruct c as [x| |b i| |b i|]; unfold invoke.
    + unfold forward, model_detect. destruct (model self) as [m|]; simpl;
        by rewrite ?model_calls_app, ?app_nil_r.
    + simpl. by destruct (model self); rewrite app_nil_r.
    + pose proof (training_step_calls self b i w) as Hc.
      unfold mbind, M_bind. destruct (training_step self b i w) as [[v|e] w'];
        simpl in *; rewrite Hc; destruct b; done.
    + simpl. by destruct (model self); rewrite app_nil_r.
    + pose proof (validation_step_calls self b i w) as Hc.
      unfold mbind, M_bind. destruct (validation_step self b i w) as [[v|e] w'];
        simpl in *; rewrite Hc; destruct b; done.
    + unfold on_validation_epoch_end, metric_fn_value, get_metric, odict_getitem,
        lift, logger_info, emit, mbind, M_bind. simpl.
      destruct (odict_get "mAP" _); simpl; rewrite ?model_calls_app; simpl;
        by destruct (model self); rewrite ?app_nil_r.
  - intros m. unfold delegating.
    destruct c as [x| |[??] i| |[??] i|]; simpl;
      (split; [intros [? Hcall]|intros Hin]);
      try discriminate Hcall; try (by eauto); try (by repeat constructor);
      repeat (apply elem_of_cons in Hin as [Hin|Hin]; [discriminate Hin|]);
      by apply elem_of_nil in Hin.
  - intros x. unfold forward, model_detect. by destruct (model self).
Qed.
End Delegation.

(* ===================================================================== *)
(** * The metric across validation epochs *)
(* ===================================================================== *)

Section Epochs.
Context `{MetricLib}.

Lemma blind_ret {A : Type} (a : A) : blind (mret a).
Proof. by intros w1 w2 Hw. Qed.

Lemma blind_lift {A : Type} (r : result A) : blind (lift r).
Proof. by intros w1 w2 Hw. Qed.

Lemma blind_emit (e : event) : blind (emit e).
Proof.
  intros w1 w2 [Htr Hadd]. split; [done|]. split; simpl; [by rewrite Htr|done].
Qed.

Lemma blind_bind {A B : Type} (c : M A) (f : A → M B) :
  blind c → (∀ a, blind (f a)) → blind (c ≫= f).
Proof.
  intros Hc Hf w1 w2 Hw. destruct (Hc w1 w2 Hw) as [Hres Hw'].
  unfold mbind, M_bind.
  destruct (c w1) as [[a1|e1] w1'], (c w2) as [[a2|e2] w2']; simpl in *;
    try discriminate Hres.
  - injection Hres as ->. by apply Hf.
  - injection Hres as ->. done.
Qed.

Lemma blind_metric_fn_add (self : ReXNetSSD) (preds gt : array2) :
  blind (metric_fn_add self preds gt).
Proof.
  intros w1 w2 [Htr Hadd]. split; [done|]. split; simpl; [done|].
  by rewrite !metric_added_add, Hadd.
Qed.

Lemma blind_metric_fn_value (self : ReXNetSSD) (t : Q) :
  blind (metric_fn_value self t).
Proof.
  intros w1 w2 [Htr Hadd]. split; [|done]. simpl.
  f_equal. by apply metric_value_added.
Qed.

Lemma blind_model_detect (self : ReXNetSSD) (images : list Tensor) :
  blind (model_detect self images).
Proof.
  unfold model_detect. destruct (model self) as [m|].
  - apply blind_bind; [apply blind_emit|intros _; apply blind_ret].
  - by intros w1 w2 Hw.
Qed.

Lemma blind_for_each {A : Type} (body : A → M unit) (l : list A) :
  (∀ a, blind (body a)) → blind (for_each body l).
Proof.
  intros Hbody. induction l as [|a l IH]; simpl.
  - apply blind_ret.
  - apply blind_bind; [apply Hbody|]. by intros _.
Qed.

Lemma blind_validation_step (self : ReXNetSSD)
    (b : list Tensor * list (Target Scalar)) (i : Z) :
  blind (validation_step self b i).
Proof.
  destruct b as [images annotations]. unfold validation_step.
  apply blind_bind; [apply blind_model_detect|intros results].
  apply blind_bind.
  { apply blind_for_each. intros idx. unfold validation_step_image.
    repeat (apply blind_bind; [apply blind_lift|intros ?]).
    apply blind_metric_fn_add. }
  intros _. apply blind_bind; [apply blind_metric_fn_value|intros value].
  apply blind_bind; [apply blind_lift|intros v].
  apply blind_bind; [apply blind_emit|intros _; apply blind_ret].
Qed.

Lemma blind_validation_steps (self : ReXNetSSD)
    (batches : list (list Tensor * list (Target Scalar))) :
  ∀ i, blind (validation_steps self batches i).
Proof.
  induction batches as [|b batches IH]; intros i; simpl.
  - apply blind_ret.
  - apply blind_bind; [apply blind_validation_step|intros v].
    apply blind_bind; [apply IH|intros vs; apply blind_ret].
Qed.

Lemma blind_on_validation_epoch_end (self : ReXNetSSD) :
  blind (on_validation_epoch_end self).
Proof.
  unfold on_validation_epoch_end.
  apply blind_bind; [apply blind_metric_fn_value|intros value].
  apply blind_bind; [apply blind_lift|intros v]. apply blind_emit.
Qed.

(** The start hook empties the accumulator, whatever it held. *)
Lemma on_validation_epoch_start_resets (self : ReXNetSSD) (w : World) :
  on_validation_epoch_start self w
  = (Ok tt, {| metric := metric_reset (metric_fn self) (metric w); trace := trace w |}).
Proof. done. Qed.

(** C7: the start hook of a validation epoch resets the accumulator, so
    what the epoch returns, logs and reports, and what the accumulator
    holds after it, are the same whatever the accumulator held before --
    they depend on the pairs of this epoch only. *)
Theorem validation_epoch_forgets_earlier_epochs (self : ReXNetSSD)
    (batches : list (list Tensor * list (Target Scalar))) (tr : list event)
    (earlier earlier' : Accumulator) :
  let run acc := validation_epoch self batches {| metric := acc; trace := tr |} in
  metric_added (metric (on_validation_epoch_start self
                          {| metric := earlier; trace := tr |}).2) = []
  ∧ (run earlier).1 = (run earlier').1
  ∧ trace (run earlier).2 = trace (run earlier').2
  ∧ metric_added (metric (run earlier).2) = metric_added (metric (run earlier').2).
Proof.
  intros run. split; [apply metric_added_reset|].
  assert (Hblind : blind (vs ← validation_steps self batches 0;
                          on_validation_epoch_end self;; mret vs)).
  { apply blind_bind; [apply blind_validation_steps|intros vs].
    apply blind_bind; [apply blind_on_validation_epoch_end|intros _; apply blind_ret]. }
  subst run. unfold validation_epoch. cbv beta.
  erewrite !bind_ok by apply on_validation_epoch_start_resets.
  edestruct Hblind as [Hres [Htr Hadd]]; [|split; [exact Hres|split; [exact Htr|exact Hadd]]].
  split; simpl; [done|]. by rewrite !metric_added_reset.
Qed.
End Epochs.

(* ===================================================================== *)
(** * The factory *)
(* ===================================================================== *)

Lemma defaults_head : defaults !! "head" = None.
Proof. by vm_compute. Qed.

Section Factory.
Context `{MetricLib} `{!ReXNetLib}.

(** The assertion of the factory holds: the backbone returns six feature
    maps, one per list of aspect ratios. *)
Lemma retrieve_out_channels_six (r : ReXNetV1) (size : Z * Z) :
  ∃ out_channels,
    retrieve_out_channels (ReXNetSSDBackbone_init r) size = Ok out_channels
    ∧ length out_channels = 6%nat.
Proof.
  unfold retrieve_out_channels.
  rewrite ReXNetSSDBackbone_forward_chain. simpl. eauto.
Qed.

(** The trace and the result of a call that does not name [head]. *)
Lemma ssdlite224_rexnet_v1_builds (backbone_weight_path is_freeze_base_net : pyval)
    (num_classes : option pyval) (kwargs : gmap string pyval) (w : World) :
  kwargs !! "head" = None →
  ∃ (model : SSD) (msg : string),
    ssdlite224_rexnet_v1 backbone_weight_path is_freeze_base_net num_classes kwargs w
    = (Ok model, {| metric := metric w;
                    trace := trace w ++ [EvInfo msg []; EvNewSSD model] |})
    ∧ ssd_kwargs model = kwargs ∪ defaults
    ∧ ssd_num_classes model = default (PyInt 80) num_classes
    ∧ head_num_classes (ssd_head model) = default (PyInt 80) num_classes.
Proof.
  intros Hhead. unfold ssdlite224_rexnet_v1.
  set (frozen := {| features := _ |}).
  assert (Hnew : ∀ (r : ReXNetV1) nc hd w',
    (kwargs ∪ defaults) !! "head" = None →
    SSD_new (ReXNetSSDBackbone_init r)
      {| aspect_ratios := map (λ _, [2; 3]) (range 6);
         min_ratio := 2 # 10; max_ratio := 95 # 100 |} (320, 320) nc hd
      (kwargs ∪ defaults) w'
    = (Ok {| ssd_backbone := ReXNetSSDBackbone_init r;
             ssd_anchor_generator :=
               {| aspect_ratios := map (λ _, [2; 3]) (range 6);
                  min_ratio := 2 # 10; max_ratio := 95 # 100 |};
             ssd_size := (320, 320); ssd_num_classes := nc; ssd_head := hd;
             ssd_kwargs := kwargs ∪ defaults |},
       {| metric := metric w';
          trace := trace w' ++ [EvNewSSD
            {| ssd_backbone := ReXNetSSDBackbone_init r;
             ssd_anchor_generator :=
               {| aspect_ratios := map (λ _, [2; 3]) (range 6);
                  min_ratio := 2 # 10; max_ratio := 95 # 100 |};
             ssd_size := (320, 320); ssd_num_classes := nc; ssd_head := hd;
             ssd_kwargs := kwargs ∪ defaults |}] |})).
  { intros r nc hd w' Hh. unfold SSD_new. by rewrite Hh. }
  assert (Hh : (kwargs ∪ defaults) !! "head" = None).
  { apply lookup_union_None. split; [done|apply defaults_head]. }
  destruct (truthy is_freeze_base_net), (is_none backbone_weight_path);
    (run_to_SSD_new retrieve_out_channels_six; rewrite Hnew by done; cbn -[union defaults ReXNetSSDBackbone_init];
     eexists _, _; rewrite <- app_assoc; split; [reflexivity|done]).
Qed.



(** The fallback of [__init__], the metric and the three attributes. *)
Lemma ReXNetSSD_init_runs (rexnet_ssd_model : option SSD) (num_classes : pyval) (w : World) :
  let fn := {| metric_name := "map_2d"; async_mode := true; metric_num_classes := 3 |} in
  ∃ (m : option SSD) (evs : list event),
    ReXNetSSD_init rexnet_ssd_model num_classes w
    = (Ok {| model := m; metric_fn := fn; num_classes := num_classes |},
       {| metric := metric_new fn; trace := (trace w ++ evs) ++ [EvNewMetric fn] |})
    ∧ match rexnet_ssd_model with
      | None =>
          if is_none num_classes
          then ∃ ssd msg, m = Some ssd ∧ ssd_num_classes ssd = PyInt 20
                          ∧ evs = [EvInfo msg []; EvNewSSD ssd]
          else m = None ∧ evs = []
      | Some _ => m = rexnet_ssd_model ∧ evs = []
      end.
Proof.
  intros fn. unfold ReXNetSSD_init.
  destruct rexnet_ssd_model as [ssd|]; [|destruct (is_none num_classes)]; cbn [bool_decide andb].
  - exists (Some ssd), []. rewrite app_nil_r. by split.
  - destruct (ssdlite224_rexnet_v1_builds PyNone PyNone (Some (PyInt 20)) ∅ w
                (lookup_empty _)) as (ssd & msg & Hrun & _ & Hnc & _).
    exists (Some ssd), [EvInfo msg []; EvNewSSD ssd].
    split; [|by eauto].
    rewrite bool_decide_eq_true_2 by done. cbn [andb].
    unfold mbind at 1. unfold M_bind at 1.
    erewrite bind_ok by exact Hrun. done.
  - exists None, []. rewrite app_nil_r. rewrite andb_false_r. by split.
Qed.
End Factory.

(* ===================================================================== *)
(** * Constructing [ReXNetSSD] *)
(* ===================================================================== *)

Section Construction.
Context `{MetricLib} `{!ReXNetLib}.

Lemma ssd_built_app (tr tr' : list event) :
  ssd_built (tr ++ tr') = ssd_built tr ++ ssd_built tr'.
Proof. apply omap_app. Qed.

Lemma metrics_built_app (tr tr' : list event) :
  metrics_built (tr ++ tr') = metrics_built tr ++ metrics_built tr'.
Proof. apply omap_app. Qed.

(** C8: [ReXNetSSD(None, num_classes)] with [num_classes] not [None] builds
    no detector and leaves [self.model] at [None]; the 20-class fallback is
    built exactly when both arguments are [None]; a detector that is given
    is kept. *)
Theorem ReXNetSSD_init_fallback (rexnet_ssd_model : option SSD) (num_classes : pyval)
    (w : World) :
  ∃ (self : ReXNetSSD) (w' : World),
    ReXNetSSD_init rexnet_ssd_model num_classes w = (Ok self, w')
    ∧ match rexnet_ssd_model with
      | None =>
          if is_none num_classes
          then ∃ ssd, model self = Some ssd ∧ ssd_num_classes ssd = PyInt 20
                      ∧ ssd_built (trace w') = ssd_built (trace w) ++ [ssd]
          else model self = None ∧ ssd_built (trace w') = ssd_built (trace w)
      | Some _ =>
          model self = rexnet_ssd_model ∧ ssd_built (trace w') = ssd_built (trace w)
      end.
Proof.
  destruct (ReXNetSSD_init_runs rexnet_ssd_model num_classes w) as (m & evs & Hrun & Hm).
  eexists _, _. split; [exact Hrun|]. cbn [model trace].
  rewrite !ssd_built_app. cbn [ssd_built omap]. rewrite app_nil_r.
  destruct rexnet_ssd_model as [ssd|]; [|destruct (is_none num_classes)].
  - destruct Hm as [-> ->]. by rewrite app_nil_r.
  - destruct Hm as (ssd & msg & -> & Hnc & ->). by exists ssd.
  - destruct Hm as [-> ->]. by rewrite app_nil_r.
Qed.

(** C9: every construction of [ReXNetSSD], whatever [num_classes] and
    whatever detector it is given, builds one metric, with
    [num_classes=3]. *)
Theorem ReXNetSSD_init_metric_three_classes (rexnet_ssd_model : option SSD)
    (num_classes : pyval) (w : World) :
  ∃ (self : ReXNetSSD) (w' : World),
    ReXNetSSD_init rexnet_ssd_model num_classes w = (Ok self, w')
    ∧ metric_fn self
      = {| metric_name := "map_2d"; async_mode := true; metric_num_classes := 3 |}
    ∧ metrics_built (trace w') = metrics_built (trace w) ++ [metric_fn self]
    ∧ metric w' = metric_new (metric_fn self).
Proof.
  destruct (ReXNetSSD_init_runs rexnet_ssd_model num_classes w) as (m & evs & Hrun & Hm).
  eexists _, _. split; [exact Hrun|]. cbn [metric_fn trace metric].
  split; [done|]. split; [|done].
  assert (Hevs : metrics_built evs = []).
  { destruct rexnet_ssd_model as [ssd|]; [|destruct (is_none num_classes)].
    - by destruct Hm as [_ ->].
    - by destruct Hm as (ssd & msg & _ & _ & ->).
    - by destruct Hm as [_ ->]. }
  by rewrite !metrics_built_app, Hevs, app_nil_r.
Qed.


End Construction.

(* ===================================================================== *)
(** * The theorems at work on the small model *)
(* ===================================================================== *)

Section Examples.
Import Toy.
#[local] Existing Instances torch rexnet detection metrics.

(** C3 at two images: both pairs reach the metric. *)
Lemma validation_step_adds_one_pair_per_image_witness :
  ∃ (v : Z) (w' : @World torch detection metrics),
    @validation_step torch detection metrics (lightning 3) ([[1]; [2]], [target; target]) 0 world = (Ok v, w')
    ∧ @metric_added torch detection metrics (metric w')
      = [ ([[1; 2; 3; 4; 1; 9]], [[0; 0; 5; 5; 2; 0; 0]]);
          ([[1; 2; 3; 4; 1; 9]], [[0; 0; 5; 5; 2; 0; 0]]) ].
Proof.
  destruct (@validation_step_adds_one_pair_per_image torch detection metrics (lightning 3) (ssd 3)
              [[1]; [2]] [target; target] 0 world)
    as (v & w' & Hrun & Hadd & _).
  - reflexivity.
  - reflexivity.
  - reflexivity.
  - repeat constructor.
  - repeat constructor.
  - exists v, w'. split; [exact Hrun|exact Hadd].
Defined.

(** C4 on the losses 36 and 5. *)
Lemma training_step_logs_and_sums_witness :
  (@training_step torch detection metrics (lightning 3) ([[1]], [target]) 0 world).1 = Ok 41.
Proof.
  exact (f_equal fst
           (@training_step_logs_and_sums torch detection metrics (lightning 3) (ssd 3) [[1]] [target] 0 world
              36 5 eq_refl eq_refl eq_refl)).
Defined.

(** C6 as stated fails on the two epoch hooks: Lightning runs them in every
    validation epoch, they do their work (the first empties the
    accumulator, the second reports the metric), and neither calls the
    detector. *)
Lemma lifecycle_hooks_counterexample :
  let w : World := {| metric := [([], [])]; trace := [] |} in
  invoke (lightning 3) call_on_validation_epoch_start w
  = (Ok ret_none, {| metric := []; trace := [] |})
  ∧ invoke (lightning 3) call_on_validation_epoch_end w
    = (Ok ret_none,
       {| metric := [([], [])]; trace := [EvInfo "Validation mAP: %1.4f" [1]] |})
  ∧ model_calls (trace (invoke (lightning 3) call_on_validation_epoch_start w).2) = []
  ∧ model_calls (trace (invoke (lightning 3) call_on_validation_epoch_end w).2) = [].
Proof. by vm_compute. Qed.




(** C6 on [forward]: its one call of the detector. *)
Lemma lifecycle_delegates_to_detector_witness :
  model_calls (trace (invoke (lightning 3) (call_forward [[1]]) world).2)
  = [(ssd 3, [[1]], None)].
Proof.
  exact (proj1 (@lifecycle_delegates_to_detector torch detection metrics
                  (lightning 3) (call_forward [[1]]) world)).
Defined.

(** C7 on an epoch of one batch, after an earlier epoch that left one pair
    behind and after none. *)
Lemma validation_epoch_forgets_earlier_epochs_witness :
  (validation_epoch (lightning 3) [([[1]], [target])]
     {| metric := [([], [])]; trace := [] |}).1
  = (validation_epoch (lightning 3) [([[1]], [target])]
       {| metric := []; trace := [] |}).1.
Proof.
  exact (proj1 (proj2 (@validation_epoch_forgets_earlier_epochs torch detection metrics
                         (lightning 3) [([[1]], [target])] [] [([], [])] []))).
Defined.

(** C8 on [ReXNetSSD(None, 5)]. *)
Lemma ReXNetSSD_init_fallback_witness :
  ∃ (self : ReXNetSSD) (w' : World),
    ReXNetSSD_init None (PyInt 5) world = (Ok self, w')
    ∧ model self = None ∧ ssd_built (trace w') = [].
Proof.
  destruct (@ReXNetSSD_init_fallback torch detection metrics rexnet None (PyInt 5) world)
    as (self & w' & Hrun & Hmodel & Hbuilt).
  exists self, w'. split; [exact Hrun|]. split; [exact Hmodel|exact Hbuilt].
Defined.

(** C9 on a module around an 80-class detector. *)
Lemma ReXNetSSD_init_metric_three_classes_witness :
  ∃ (self : ReXNetSSD) (w' : World),
    ReXNetSSD_init (Some (ssd 80)) (PyInt 80) world = (Ok self, w')
    ∧ metric_num_classes (metric_fn self) = 3.
Proof.
  destruct (@ReXNetSSD_init_metric_three_classes torch detection metrics rexnet
              (Some (ssd 80)) (PyInt 80) world)
    as (self & w' & Hrun & Hfn & _).
  exists self, w'. split; [exact Hrun|]. by rewrite Hfn.
Defined.
End Examples.


(* ===================================================================== *)
(** * Batches *)
(* ===================================================================== *)

Section CollateFacts.
Context {A : Type}.

Lemma mapM_head_lookup (rows : list (list A)) :
  mapM head rows = mapM (λ row : list A, row !! 0%nat) rows.
Proof. apply mapM_ext. intros row. by destruct row. Qed.

Lemma mapM_lookup_tail (rows : list (list A)) (j : nat) :
  mapM (λ row : list A, row !! j) (map tail rows)
  = mapM (λ row : list A, row !! S j) rows.
Proof.
  apply Forall2_mapM_ext, Forall2_fmap_l, Forall_Forall2_diag, Forall_forall.
  intros row _. by destruct row.
Qed.

Lemma zip_rows_lookup_1 (fuel : nat) :
  ∀ (rows : list (list A)) (j : nat) (t : list A),
    zip_rows fuel rows !! j = Some t →
    mapM (λ row : list A, row !! j) rows = Some t.
Proof.
  induction fuel as [|fuel IH]; intros rows j t Hj; [done|].
  cbn [zip_rows] in Hj.
  destruct (mapM head rows) as [items|] eqn:Hitems; [|done].
  destruct j as [|j]; cbn in Hj.
  - injection Hj as <-. by rewrite <- mapM_head_lookup.
  - rewrite <- mapM_lookup_tail. by apply IH.
Qed.

Lemma zip_rows_lookup_2 (fuel : nat) :
  ∀ (rows : list (list A)) (j : nat) (t : list A),
    (j < fuel)%nat →
    mapM (λ row : list A, row !! j) rows = Some t →
    zip_rows fuel rows !! j = Some t.
Proof.
  induction fuel as [|fuel IH]; intros rows j t Hfuel Hj; [lia|].
  cbn [zip_rows].
  assert (Hheads : is_Some (mapM head rows)).
  { apply mapM_is_Some.
    assert (Hall : Forall (is_Some ∘ (λ row : list A, row !! j)) rows).
    { apply mapM_is_Some. by eauto. }
    eapply Forall_impl; [exact Hall|]. intros [|a row] [x Hx]; [|by eexists].
    cbn in Hx. by rewrite lookup_nil in Hx. }
  destruct Hheads as [items Hitems]. rewrite Hitems.
  destruct j as [|j]; cbn.
  - rewrite mapM_head_lookup in Hitems. congruence.
  - apply IH; [lia|]. by rewrite mapM_lookup_tail.
Qed.

Lemma mapM_pair_heads {B : Type} (f : B → A) (g : B → list A) (l : list B) :
  mapM head (map (λ b, f b :: g b) l) = Some (map f l).
Proof.
  apply mapM_Some, Forall2_fmap_l, Forall2_fmap_r, Forall_Forall2_diag, Forall_forall.
  by intros b _.
Qed.
Lemma zip_rows_pairs (samples : list (A * A)) :
  zip_rows 2 (map (λ s, [s.1; s.2]) samples) = [samples.*1; samples.*2].
Proof.
  cbn [zip_rows].
  rewrite (mapM_pair_heads fst (λ s, [s.2]) samples).
  rewrite map_map. cbn [tail].
  rewrite (mapM_pair_heads snd (λ _, []) samples). done.
Qed.

Lemma zip_star_lookup (rows : list (list A)) (j : nat) (t : list A) :
  rows ≠ [] →
  zip_star rows !! j = Some t ↔ mapM (λ row : list A, row !! j) rows = Some t.
Proof.
  intros Hne. destruct rows as [|row rest]; [done|].
  unfold zip_star. split.
  - apply zip_rows_lookup_1.
  - intros Hj. apply zip_rows_lookup_2; [|done].
    apply mapM_Some, Forall2_cons_inv_l in Hj as (x & k & Hx & _ & _).
    by apply lookup_lt_Some in Hx.
Qed.

(** X1: a non-empty batch is transposed: tuple [j] of [collate_batch(batch)]
    exists exactly when every sample has an item [j], and is then made of
    the samples' items [j], in the order of the samples.  An empty batch
    gives no tuple at all. *)
Theorem collate_batch_transposes (batch : list (list A)) (j : nat) (t : list A) :
  batch ≠ [] →
  collate_batch batch !! j = Some t
  ↔ mapM (λ sample : list A, sample !! j) batch = Some t.
Proof.
  intros Hne. unfold collate_batch. by apply zip_star_lookup.
Qed.

(** X2: every tuple of [collate_batch(batch)] holds one item per sample,
    and there are no more tuples than the shortest sample has items: a
    sample's surplus items are dropped without an error. *)
Theorem collate_batch_shape (batch : list (list A)) :
  Forall (λ t, length t = length batch) (collate_batch batch)
  ∧ Forall (λ sample, (length (collate_batch batch) ≤ length sample)%nat) batch.
Proof.
  assert (Hlookup : ∀ j t, collate_batch batch !! j = Some t →
                           mapM (λ sample : list A, sample !! j) batch = Some t).
  { intros j t. unfold collate_batch, zip_star.
    destruct batch as [|row rest]; [done|]. apply zip_rows_lookup_1. }
  split.
  - apply Forall_lookup. intros j t Hj. symmetry. eapply length_mapM. by apply Hlookup.
  - apply Forall_forall. intros sample Hin.
    destruct (collate_batch batch) as [|t0 c] eqn:Hc using rev_ind; [cbn; lia|].
    clear IHc. specialize (Hlookup (length c) t0).
    rewrite lookup_app_r, Nat.sub_diag in Hlookup by lia.
    specialize (Hlookup eq_refl).
    apply mapM_Some in Hlookup.
    apply list_elem_of_lookup in Hin as [i Hi].
    destruct (Forall2_lookup_l _ _ _ _ _ Hlookup Hi) as (y & _ & Hy).
    apply lookup_lt_Some in Hy. rewrite length_app. cbn. lia.
Qed.

(** X3: on samples that are (image, target) pairs [collate_batch] returns
    the images and the targets, each in the order of the samples, and the
    steps' [image_batch, annotations_batch = batch] takes them apart; on an
    empty batch it returns the empty tuple, which that unpacking refuses
    with [ValueError]. *)
Theorem collate_batch_pairs (samples : list (A * A)) :
  let batch := map (λ s, [s.1; s.2]) samples in
  collate_batch batch = match samples with
                        | [] => []
                        | _ => [samples.*1; samples.*2]
                        end
  ∧ unpack_pair (collate_batch batch)
    = match samples with
      | [] => Raise ValueError
      | _ => Ok (samples.*1, samples.*2)
      end
  ∧ length samples.*1 = length samples.*2.
Proof.
  intros batch. subst batch. destruct samples as [|s samples].
  - by cbn.
  - unfold collate_batch, zip_star.
    change (map (λ s0 : A * A, [s0.1; s0.2]) (s :: samples))
      with ([s.1; s.2] :: map (λ s0 : A * A, [s0.1; s0.2]) samples) at 1 3.
    cbn [length].
    rewrite (zip_rows_pairs (s :: samples)).
    by rewrite !length_fmap.
Qed.
End CollateFacts.

(* ===================================================================== *)
(** * [validation_step] on batches that do not match *)
(* ===================================================================== *)

Section ValidationEdges.
Context `{MetricLib}.

Lemma for_each_app {B : Type} (body : B → M unit) (l1 l2 : list B) (w : World) :
  for_each body (l1 ++ l2) w
  = match for_each body l1 w with
    | (Ok _, w1) => for_each body l2 w1
    | (Raise e, w1) => (Raise e, w1)
    end.
Proof.
  revert w. induction l1 as [|b l1 IH]; intros w; [done|].
  cbn [app for_each]. unfold mbind, M_bind.
  destruct (body b w) as [[[]|e] w1]; [apply IH|done].
Qed.

Lemma zip_with_take_l {B C D : Type} (f : B → C → D) (l : list B) (k : list C) :
  zip_with f (take (length k) l) k = zip_with f l k.
Proof.
  revert l. induction k as [|c k IH]; intros [|b l]; cbn; try done.
  by rewrite IH.
Qed.

Lemma zip_with_take_r {B C D : Type} (f : B → C → D) (l : list B) (k : list C) :
  zip_with f l (take (length l) k) = zip_with f l k.
Proof.
  revert k. induction l as [|b l IH]; intros [|c k]; cbn; try done.
  by rewrite IH.
Qed.

(** The loop over a stretch of indices where detections and targets exist
    and are well shaped. *)
Lemma validation_step_stretch (self : ReXNetSSD)
    (results : list (Detections Scalar)) (annotations : list (Target Scalar)) (n : nat) :
  ∀ (k : nat) (w : World),
    (k + n ≤ length results)%nat → (k + n ≤ length annotations)%nat →
    Forall well_shaped_detections (take (k + n) results) →
    Forall well_shaped_target (take (k + n) annotations) →
    ∃ w', for_each (validation_step_image self results (map target_boxes annotations)
                      (map target_labels annotations)) (seq k n) w = (Ok tt, w')
          ∧ trace w' = trace w
          ∧ metric_added (metric w')
            = metric_added (metric w)
              ++ zip_with (λ r t, (prediction_rows r, ground_truth_rows t))
                          (take n (drop k results)) (take n (drop k annotations)).
Proof.
  induction n as [|n IH]; intros k w Hr Ha Wr Wt.
  - exists w. cbn. by rewrite app_nil_r.
  - destruct (lookup_lt_is_Some_2 results k) as [r Hk]; [lia|].
    destruct (lookup_lt_is_Some_2 annotations k) as [t Hk']; [lia|].
    cbn [seq for_each].
    erewrite bind_ok; last first.
    { apply validation_step_image_adds; [done|done| |].
      - apply (Forall_lookup_1 _ _ k r Wr). rewrite lookup_take_lt by lia. done.
      - apply (Forall_lookup_1 _ _ k t Wt). rewrite lookup_take_lt by lia. done. }
    replace (k + S n)%nat with (S k + n)%nat in * by lia.
    edestruct (IH (S k)) as (w' & Hrun & Htr & Hadd); [done|done|done|done|].
    exists w'. split; [exact Hrun|]. split; [by rewrite Htr|].
    rewrite Hadd. cbn [metric]. rewrite metric_added_add.
    rewrite (drop_S _ _ _ Hk), (drop_S _ _ _ Hk'). cbn [take zip_with].
    by rewrite <- app_assoc.
Qed.

(** [validation_step] up to the first image whose turn of the loop raises:
    the pairs of the images before it are in the accumulator, the detector
    has been called, and nothing is logged. *)
Lemma validation_step_stops (self : ReXNetSSD) (m : SSD) (images : list Tensor)
    (annotations : list (Target Scalar)) (batch_idx : Z) (w : World) (j : nat) (e : exn) :
  model self = Some m →
  (j < length (ssd_detect m images))%nat → (j ≤ length annotations)%nat →
  Forall well_shaped_detections (take j (ssd_detect m images)) →
  Forall well_shaped_target (take j annotations) →
  (∀ w', validation_step_image self (ssd_detect m images) (map target_boxes annotations)
           (map target_labels annotations) j w' = (Raise e, w')) →
  ∃ w', validation_step self (images, annotations) batch_idx w = (Raise e, w')
        ∧ trace w' = trace w ++ [EvModel m images None]
        ∧ metric_added (metric w')
          = metric_added (metric w)
            ++ zip_with (λ r t, (prediction_rows r, ground_truth_rows t))
                        (take j (ssd_detect m images)) (take j annotations).
Proof.
  intros Hm Hj Hj' Wr Wt Hraise.
  set (w0 := {| metric := metric w; trace := trace w ++ [EvModel m images None] |}).
  destruct (validation_step_stretch self (ssd_detect m images) annotations j 0%nat w0)
    as (w1 & Hrun & Htr & Hadd); [lia|lia|done|done|].
  exists w1. split; [|split; [by rewrite Htr|by rewrite Hadd, !drop_0]].
  unfold validation_step, model_detect. rewrite Hm.
  rewrite (bind_ok _ _ w w0 (ssd_detect m images)) by reflexivity.
  apply bind_raise. unfold range.
  replace (length (ssd_detect m images))
    with (j + S (length (ssd_detect m images) - S j))%nat by lia.
  rewrite seq_app, for_each_app, Hrun. cbn [seq for_each].
  apply bind_raise, Hraise.
Qed.

Lemma concatenate_ill_shaped_detections (r : Detections Scalar) :
  ¬ well_shaped_detections r →
  concatenate_1 [boxes_array (det_boxes r); as_float (expand_dims_1 (det_labels r));
                 expand_dims_1 (det_scores r)]
  = Raise ValueError.
Proof.
  intros Hill. unfold concatenate_1. cbn [for_fold].
  destruct (decide (length (det_labels r) = length (det_boxes r))) as [Hl|Hl].
  - rewrite hstack_zip by (by rewrite length_boxes_array, length_as_float_expand).
    cbn. rewrite hstack_mismatch; [done|].
    rewrite length_zip_with, length_boxes_array, length_as_float_expand,
      length_expand_dims_1.
    intros Hs. apply Hill. split; lia.
  - rewrite hstack_mismatch; [done|].
    by rewrite length_boxes_array, length_as_float_expand.
Qed.

Lemma concatenate_ill_shaped_target (t : Target Scalar) :
  ¬ well_shaped_target t →
  concatenate_1 [boxes_array (target_boxes t); as_float (expand_dims_1 (target_labels t));
                 np_zeros (length (target_boxes t)) 2]
  = Raise ValueError.
Proof.
  intros Hill. unfold concatenate_1. cbn [for_fold].
  rewrite hstack_mismatch; [done|].
  rewrite length_boxes_array, length_as_float_expand. intros Hl. by apply Hill.
Qed.

Lemma decide_well_shaped_detections (r : Detections Scalar) :
  well_shaped_detections r ∨ ¬ well_shaped_detections r.
Proof.
  unfold well_shaped_detections.
  destruct (decide (length (det_scores r) = length (det_boxes r)));
    destruct (decide (length (det_labels r) = length (det_boxes r))); tauto.
Qed.

(** X4: when the batch holds fewer targets than the detector returns
    detections, [validation_step] pairs detection [i] with target [i] as
    long as targets last, then raises [IndexError]: the pairs made so far
    stay in the accumulator, and no metric value is computed or logged. *)
Theorem validation_step_missing_target (self : ReXNetSSD) (m : SSD)
    (images : list Tensor) (annotations : list (Target Scalar)) (batch_idx : Z)
    (w : World) :
  model self = Some m →
  (length annotations < length (ssd_detect m images))%nat →
  Forall well_shaped_detections (ssd_detect m images) →
  Forall well_shaped_target annotations →
  ∃ w', validation_step self (images, annotations) batch_idx w = (Raise IndexError, w')
        ∧ trace w' = trace w ++ [EvModel m images None]
        ∧ metric_added (metric w')
          = metric_added (metric w) ++ batch_pairs m (images, annotations)
        ∧ length (batch_pairs m (images, annotations)) = length annotations.
Proof.
  intros Hm Hlen Wr Wt.
  destruct (validation_step_stops self m images annotations batch_idx w
              (length annotations) IndexError Hm Hlen)
    as (w' & Hrun & Htr & Hadd); [lia|by apply Forall_take|by apply Forall_take| |].
  - intros w'. unfold validation_step_image, list_getitem.
    destruct (lookup_lt_is_Some_2 (ssd_detect m images) (length annotations) Hlen)
      as [r ->].
    rewrite (lookup_ge_None_2 (map target_boxes annotations)) by (by rewrite length_map).
    done.
  - exists w'. split; [exact Hrun|]. split; [exact Htr|].
    unfold batch_pairs. cbn [fst snd]. split.
    + rewrite Hadd, (take_ge annotations) by done. by rewrite zip_with_take_l.
    + rewrite length_zip_with. lia.
Qed.

(** X5: when the batch holds more targets than the detector returns
    detections, [validation_step] uses the first targets only: one pair per
    detection, the surplus targets ignored without an error, and the value
    is computed and logged as usual. *)
Theorem validation_step_surplus_targets (self : ReXNetSSD) (m : SSD)
    (images : list Tensor) (annotations : list (Target Scalar)) (batch_idx : Z)
    (w : World) :
  model self = Some m →
  (length (ssd_detect m images) < length annotations)%nat →
  Forall well_shaped_detections (ssd_detect m images) →
  Forall well_shaped_target annotations →
  ∃ (v : Scalar) (w' : World),
    validation_step self (images, annotations) batch_idx w = (Ok v, w')
    ∧ trace w' = trace w ++ [EvModel m images None; EvLog "valid_mean_ap" v]
    ∧ metric_added (metric w')
      = metric_added (metric w) ++ batch_pairs m (images, annotations)
    ∧ length (batch_pairs m (images, annotations)) = length (ssd_detect m images).
Proof.
  intros Hm Hlen Wr Wt.
  set (w0 := {| metric := metric w; trace := trace w ++ [EvModel m images None] |}).
  destruct (validation_step_stretch self (ssd_detect m images) annotations
              (length (ssd_detect m images)) 0%nat w0)
    as (w1 & Hrun & Htr & Hadd); [lia|lia|by apply Forall_take|by apply Forall_take|].
  destruct (metric_value_mAP (metric_fn self) (5 # 10) (metric w1)) as [v Hv].
  exists v, {| metric := metric w1; trace := trace w1 ++ [EvLog "valid_mean_ap" v] |}.
  split; [|split; [|split]].
  - unfold validation_step, model_detect. rewrite Hm.
    rewrite (bind_ok _ _ w w0 (ssd_detect m images)) by reflexivity.
    unfold range. erewrite bind_ok by exact Hrun.
    unfold metric_fn_value, get_metric, odict_getitem, lift, log, emit,
      mbind, M_bind, mret, M_ret. cbn. by rewrite Hv.
  - cbn. rewrite Htr. subst w0. cbn. by rewrite <- app_assoc.
  - cbn [metric]. rewrite Hadd, !drop_0, (take_ge (ssd_detect m images)) by done. unfold batch_pairs. cbn [fst snd].
    by rewrite zip_with_take_r.
  - unfold batch_pairs. cbn [fst snd]. rewrite length_zip_with. lia.
Qed.

(** X6: at the first image whose detection or target is ill shaped (scores
    or labels not as many as boxes) [validation_step] raises [ValueError]
    from [np.concatenate]: the pairs of the images before it stay in the
    accumulator, and no metric value is computed or logged. *)
Theorem validation_step_ill_shaped (self : ReXNetSSD) (m : SSD)
    (images : list Tensor) (annotations : list (Target Scalar)) (batch_idx : Z)
    (w : World) (j : nat) (r : Detections Scalar) (t : Target Scalar) :
  model self = Some m →
  ssd_detect m images !! j = Some r →
  annotations !! j = Some t →
  ¬ (well_shaped_detections r ∧ well_shaped_target t) →
  Forall well_shaped_detections (take j (ssd_detect m images)) →
  Forall well_shaped_target (take j annotations) →
  ∃ w', validation_step self (images, annotations) batch_idx w = (Raise ValueError, w')
        ∧ trace w' = trace w ++ [EvModel m images None]
        ∧ metric_added (metric w')
          = metric_added (metric w)
            ++ zip_with (λ r t, (prediction_rows r, ground_truth_rows t))
                        (take j (ssd_detect m images)) (take j annotations).
Proof.
  intros Hm Hr Ht Hill Wr Wt.
  apply (validation_step_stops self m images annotations batch_idx w j ValueError Hm);
    [by eapply lookup_lt_Some|apply lookup_lt_Some in Ht; lia|done|done|].
  intros w'. unfold validation_step_image, list_getitem.
  rewrite Hr, !list_lookup_fmap, Ht.
  unfold mbind, M_bind, lift. cbn -[concatenate_1].
  destruct (decide_well_shaped_detections r) as [Wr'|Wr'].
  - rewrite (concatenate_predictions r Wr').
    rewrite concatenate_ill_shaped_target; [done|]. tauto.
  - by rewrite (concatenate_ill_shaped_detections r Wr').
Qed.
End ValidationEdges.

(* ===================================================================== *)
(** * A validation epoch, batch after batch *)
(* ===================================================================== *)

Section EpochFacts.
Context `{MetricLib}.

(** [validation_step] on a well-formed batch, with the world it leaves. *)
Lemma validation_step_runs (self : ReXNetSSD) (m : SSD)
    (b : list Tensor * list (Target Scalar)) (batch_idx : Z) (w : World) :
  model self = Some m →
  well_formed_batch m b →
  ∃ (v : Scalar) (acc : Accumulator),
    validation_step self b batch_idx w
    = (Ok v, {| metric := acc;
                trace := trace w ++ [EvModel m b.1 None; EvLog "valid_mean_ap" v] |})
    ∧ metric_added acc = metric_added (metric w) ++ batch_pairs m b
    ∧ odict_get "mAP" (metric_value (metric_fn self) (5 # 10) acc) = Some v.
Proof.
  destruct b as [images annotations]. intros Hm (Hres & Hann & Wr & Wt). cbn [fst snd] in *.
  set (w0 := {| metric := metric w; trace := trace w ++ [EvModel m images None] |}).
  destruct (validation_step_stretch self (ssd_detect m images) annotations
              (length (ssd_detect m images)) 0%nat w0)
    as (w1 & Hrun & Htr & Hadd); [lia|lia|by apply Forall_take|by apply Forall_take|].
  destruct (metric_value_mAP (metric_fn self) (5 # 10) (metric w1)) as [v Hv].
  exists v, (metric w1). split; [|split; [|exact Hv]].
  - unfold validation_step, model_detect. rewrite Hm.
    rewrite (bind_ok _ _ w w0 (ssd_detect m images)) by reflexivity.
    unfold range. erewrite bind_ok by exact Hrun.
    unfold metric_fn_value, get_metric, odict_getitem, lift, log, emit,
      mbind, M_bind, mret, M_ret. cbn. rewrite Hv. cbn. rewrite Htr. subst w0. cbn.
    by rewrite <- app_assoc.
  - rewrite Hadd, !drop_0. unfold batch_pairs. cbn [fst snd].
    by rewrite !take_ge by lia.
Qed.

Lemma validation_steps_run (self : ReXNetSSD) (m : SSD)
    (batches : list (list Tensor * list (Target Scalar))) :
  model self = Some m →
  Forall (well_formed_batch m) batches →
  ∀ (batch_idx : Z) (w : World),
    ∃ (vs : list Scalar) (w' : World),
      validation_steps self batches batch_idx w = (Ok vs, w')
      ∧ length vs = length batches
      ∧ metric_added (metric w')
        = metric_added (metric w) ++ concat (batch_pairs m <$> batches)
      ∧ model_calls (trace w')
        = model_calls (trace w) ++ ((λ b, (m, b.1, None)) <$> batches)
      ∧ (∀ v, last vs = Some v →
              odict_get "mAP" (metric_value (metric_fn self) (5 # 10) (metric w'))
              = Some v).
Proof.
  intros Hm Hwf. induction Hwf as [|b batches Hb Hwf IH]; intros batch_idx w.
  - exists [], w. cbn. by rewrite !app_nil_r.
  - destruct (validation_step_runs self m b batch_idx w Hm Hb) as (v & acc & Hrun & Hadd & Hv).
    destruct (IH (batch_idx + 1)
                {| metric := acc;
                   trace := trace w ++ [EvModel m b.1 None; EvLog "valid_mean_ap" v] |})
      as (vs & w' & Hruns & Hlen & Hadds & Hcalls & Hlast).
    exists (v :: vs), w'. split; [|split; [|split; [|split]]].
    + cbn [validation_steps]. erewrite bind_ok by exact Hrun.
      erewrite bind_ok by exact Hruns. done.
    + cbn. by rewrite Hlen.
    + rewrite Hadds. cbn [metric]. rewrite Hadd. cbn. by rewrite <- app_assoc.
    + rewrite Hcalls. cbn [trace]. rewrite model_calls_app. cbn. by rewrite <- app_assoc.
    + intros v' Hv'. destruct vs as [|v0 vs].
      * cbn in Hv'. injection Hv' as <-.
        destruct batches; [|done]. cbn in Hruns. by injection Hruns as <-.
      * apply Hlast. by rewrite last_cons_cons in Hv'.
Qed.

(** X7: over the well-formed batches of an epoch the accumulator keeps
    growing: after the steps it holds the pairs of all batches, in order,
    after what it held before; the detector has been called once per batch;
    and the value the last step returned is the metric's value over all of
    them, not over the last batch alone. *)
Theorem validation_steps_accumulate (self : ReXNetSSD) (m : SSD)
    (batches : list (list Tensor * list (Target Scalar))) (batch_idx : Z) (w : World) :
  model self = Some m →
  Forall (well_formed_batch m) batches →
  ∃ (vs : list Scalar) (w' : World),
    validation_steps self batches batch_idx w = (Ok vs, w')
    ∧ length vs = length batches
    ∧ metric_added (metric w')
      = metric_added (metric w) ++ concat (batch_pairs m <$> batches)
    ∧ model_calls (trace w')
      = model_calls (trace w) ++ ((λ b, (m, b.1, None)) <$> batches)
    ∧ (∀ v, last vs = Some v →
            odict_get "mAP" (metric_value (metric_fn self) (5 # 10) (metric w'))
            = Some v).
Proof. intros Hm Hwf. by apply validation_steps_run. Qed.

(** X8: a whole validation epoch over well-formed batches, whatever the
    accumulator held before: it ends holding the pairs of this epoch's
    batches only, and when there is a batch, the [Validation mAP] line the
    end hook writes carries the very value the last step returned. *)
Theorem validation_epoch_reports_last_value (self : ReXNetSSD) (m : SSD)
    (batches : list (list Tensor * list (Target Scalar))) (w : World) :
  model self = Some m →
  Forall (well_formed_batch m) batches →
  batches ≠ [] →
  ∃ (vs : list Scalar) (v : Scalar) (w' : World),
    validation_epoch self batches w = (Ok vs, w')
    ∧ last vs = Some v
    ∧ last (trace w') = Some (EvInfo "Validation mAP: %1.4f" [v])
    ∧ metric_added (metric w') = concat (batch_pairs m <$> batches).
Proof.
  intros Hm Hwf Hne.
  set (w0 := {| metric := metric_reset (metric_fn self) (metric w); trace := trace w |}).
  destruct (validation_steps_run self m batches Hm Hwf 0 w0)
    as (vs & w1 & Hruns & Hlen & Hadds & _ & Hlast).
  destruct (last vs) as [v|] eqn:Hv.
  2:{ apply last_None in Hv. subst vs. by destruct batches. }
  specialize (Hlast v eq_refl).
  exists vs, v, {| metric := metric w1;
                   trace := trace w1 ++ [EvInfo "Validation mAP: %1.4f" [v]] |}.
  split; [|split; [done|split]].
  - unfold validation_epoch.
    erewrite bind_ok by apply on_validation_epoch_start_resets. fold w0.
    erewrite bind_ok by exact Hruns.
    unfold on_validation_epoch_end, metric_fn_value, get_metric, odict_getitem,
      lift, logger_info, emit, mbind, M_bind, mret, M_ret. cbn. by rewrite Hlast.
  - cbn [trace]. by rewrite last_snoc.
  - cbn [metric]. rewrite Hadds. subst w0. cbn [metric].
    by rewrite metric_added_reset.
Qed.
End EpochFacts.

(* ===================================================================== *)
(** * The methods at their edges *)
(* ===================================================================== *)

Section MethodEdges.
Context `{MetricLib}.

(** X9: when the detector's loss dictionary lacks [classification],
    [training_step] raises [KeyError] for the first missing key it asks
    for: [bbox_regression] is asked for first, and when it is there it has
    already been logged; the total [train_loss] is never logged. *)
Theorem training_step_missing_loss (self : ReXNetSSD) (m : SSD)
    (images : list Tensor) (annotations : list (Target Scalar)) (batch_idx : Z)
    (w : World) :
  model self = Some m →
  odict_get "classification" (ssd_losses m images annotations) = None →
  training_step self (images, annotations) batch_idx w
  = match odict_get "bbox_regression" (ssd_losses m images annotations) with
    | None =>
        (Raise (KeyError "bbox_regression"),
         {| metric := metric w;
            trace := trace w ++ [EvModel m images (Some annotations)] |})
    | Some bbox =>
        (Raise (KeyError "classification"),
         {| metric := metric w;
            trace := trace w ++ [EvModel m images (Some annotations);
                                 EvLog "train_loss_bbox_regression" bbox] |})
    end.
Proof.
  intros Hm Hcls. unfold training_step, model_losses, odict_getitem. rewrite Hm.
  unfold mbind, M_bind, lift, log, emit. cbn.
  destruct (odict_get "bbox_regression" _) as [bbox|]; cbn; [|done].
  rewrite Hcls. cbn. by rewrite <- app_assoc.
Qed.

(** X10: on a module without a detector ([self.model] is [None], as
    [ReXNetSSD(None, n)] leaves it) every method that runs the detector
    raises [TypeError] at once: nothing is logged and the accumulator is
    not touched. *)
Theorem methods_without_detector (self : ReXNetSSD) (c : method_call) (w : World) :
  model self = None →
  method_of c ∈ delegating →
  invoke self c w = (Raise TypeError, w).
Proof.
  intros Hm Hc. unfold delegating in Hc.
  destruct c as [x| |[images annotations] i| |[images annotations] i|];
    cbn [method_of] in Hc;
    try (exfalso;
         repeat (apply elem_of_cons in Hc as [Hc|Hc]; [discriminate Hc|]);
         by apply elem_of_nil in Hc).
  - unfold invoke, forward, model_detect. by rewrite Hm.
  - unfold invoke, training_step, model_losses. by rewrite Hm.
  - unfold invoke, validation_step, model_detect. by rewrite Hm.
Qed.

(** X11: which method touches what.  Only [on_validation_epoch_start] and
    [validation_step] can change the accumulator: [forward],
    [configure_optimizers], [training_step] and [on_validation_epoch_end]
    leave it as it is, whether they return or raise.  And
    [configure_optimizers] and [on_validation_epoch_start] log nothing. *)
Theorem methods_frame (self : ReXNetSSD) (c : method_call) (w : World) :
  (method_of c ∉ [m_on_validation_epoch_start; m_validation_step] →
   metric (invoke self c w).2 = metric w)
  ∧ (method_of c ∈ [m_configure_optimizers; m_on_validation_epoch_start] →
     trace (invoke self c w).2 = trace w).
Proof.
  split.
  - intros Hc. destruct c as [x| |[images annotations] i| |b i|]; cbn [method_of] in Hc.
    + unfold invoke, forward, model_detect. by destruct (model self).
    + done.
    + unfold invoke, training_step, model_losses, odict_getitem.
      destruct (model self) as [m|]; [|done].
      unfold mbind, M_bind, lift, log, emit. cbn.
      destruct (odict_get "bbox_regression" _); cbn; [|done].
      by destruct (odict_get "classification" _).
    + exfalso. apply Hc. by left.
    + exfalso. apply Hc. right. by left.
    + unfold invoke, on_validation_epoch_end, metric_fn_value, get_metric, odict_getitem,
        lift, logger_info, emit, mbind, M_bind. cbn.
      by destruct (odict_get "mAP" _).
  - intros Hc. destruct c as [x| |b i| |b i|]; cbn [method_of] in Hc; try done;
      exfalso;
      repeat (apply elem_of_cons in Hc as [Hc|Hc]; [discriminate Hc|]);
      by apply elem_of_nil in Hc.
Qed.
End MethodEdges.

(* ===================================================================== *)
(** * What the factory builds *)
(* ===================================================================== *)

Section FactoryFacts.
Context `{MetricLib} `{!ReXNetLib}.









End FactoryFacts.

(* ===================================================================== *)
(** * A short ReXNetV1, and collating twice *)
(* ===================================================================== *)

Section ShortBackbone.
Context `{TorchNN}.

(** X17: a ReXNetV1 with nine feature layers or fewer leaves an empty
    backbone -- the slice [[:-9]] raises nothing -- and [forward] then
    feeds its input itself to the first tail layer. *)
Theorem ReXNetSSDBackbone_short_features (r : ReXNetV1) (x : Tensor) :
  (length (features r) ≤ 9)%nat →
  backbone (ReXNetSSDBackbone_init r) = []
  ∧ ReXNetSSDBackbone_forward (ReXNetSSDBackbone_init r) x
    = Ok (zip ["0"; "1"; "2"; "3"; "4"; "5"]%string
              (tail_outputs (backbone_tails (ReXNetSSDBackbone_init r)) x)).
Proof.
  intros Hlen.
  assert (Hb : backbone (ReXNetSSDBackbone_init r) = []).
  { cbn [ReXNetSSDBackbone_init backbone]. change (-9) with (- Z.of_nat 9).
    rewrite slice_to_negative by lia.
    replace (length (features r) - 9)%nat with 0%nat by lia. done. }
  split; [exact Hb|].
  rewrite ReXNetSSDBackbone_forward_chain, Hb. done.
Qed.
End ShortBackbone.

Section CollateTwice.
Context {A : Type}.

Lemma zip_star_length_rectangular (rows : list (list A)) (n : nat) :
  rows ≠ [] → Forall (λ row, length row = n) rows → length (zip_star rows) = n.
Proof.
  intros Hne Hrect. apply Nat.le_antisymm.
  - destruct (zip_star rows) as [|t0 c] eqn:Hc using rev_ind; [cbn; lia|]. clear IHc.
    assert (Hlast : zip_star rows !! length c = Some t0).
    { rewrite Hc, lookup_app_r, Nat.sub_diag by lia. done. }
    apply zip_star_lookup, mapM_Some in Hlast; [|done].
    destruct rows as [|row rest]; [done|].
    apply Forall2_cons_inv_l in Hlast as (y & k & Hy & _ & _).
    apply lookup_lt_Some in Hy. apply Forall_inv in Hrect.
    rewrite length_app. cbn. lia.
  - destruct (decide (n ≤ length (zip_star rows))%nat) as [|Hlt]; [done|exfalso].
    assert (Hsome : is_Some (mapM (λ row : list A, row !! length (zip_star rows)) rows)).
    { apply mapM_is_Some. eapply Forall_impl; [exact Hrect|].
      intros row Hrow. unfold compose. cbv beta in Hrow. apply lookup_lt_is_Some. lia. }
    destruct Hsome as [t Ht]. apply zip_star_lookup in Ht; [|done].
    apply lookup_lt_Some in Ht. lia.
Qed.

(** X18: collating twice gives the batch back, when the batch is not empty
    and its samples all hold the same number of items, at least one. *)
Theorem collate_batch_twice (batch : list (list A)) (n : nat) :
  batch ≠ [] → (0 < n)%nat →
  Forall (λ sample, length sample = n) batch →
  collate_batch (collate_batch batch) = batch.
Proof.
  intros Hne Hn Hrect. unfold collate_batch.
  pose proof (zip_star_length_rectangular batch n Hne Hrect) as Hlen.
  assert (Hne' : zip_star batch ≠ []).
  { intros Hnil. rewrite Hnil in Hlen. cbn in Hlen. lia. }
  assert (Hcol : ∀ j t, zip_star batch !! j = Some t →
                        Forall2 (λ sample y, sample !! j = Some y) batch t).
  { intros j t Hj. by apply mapM_Some, zip_star_lookup. }
  apply list_eq. intros i.
  destruct (batch !! i) as [sample|] eqn:Hi.
  - apply zip_star_lookup; [done|]. apply mapM_Some.
    apply Forall2_same_length_lookup. split.
    + rewrite Hlen. symmetry. by apply (Forall_lookup_1 _ _ _ _ Hrect Hi).
    + intros j t y Hj Hy.
      destruct (Forall2_lookup_l _ _ _ _ _ (Hcol j t Hj) Hi) as (y' & Hy' & Hsy).
      congruence.
  - destruct (zip_star (zip_star batch) !! i) as [s|] eqn:Hs; [exfalso|done].
    apply zip_star_lookup, mapM_Some in Hs; [|done].
    destruct (zip_star batch) as [|t c] eqn:Hc; [done|].
    apply Forall2_cons_inv_l in Hs as (y & k & Hy & _ & _).
    apply lookup_lt_Some in Hy.
    pose proof (Hcol 0%nat t eq_refl) as Ht. apply Forall2_length in Ht.
    apply lookup_ge_None in Hi. lia.
Qed.
End CollateTwice.

(* ===================================================================== *)
(** * The further theorems at work on the small models *)
(* ===================================================================== *)

Section MoreExamples.
Import Toy.
#[local] Existing Instances torch rexnet detection metrics.

(** X1 on three samples of two items. *)
Lemma collate_batch_transposes_witness :
  collate_batch [[1; 2]; [3; 4]; [5; 6]] !! 1%nat = Some [2; 4; 6].
Proof.
  apply (collate_batch_transposes [[1; 2]; [3; 4]; [5; 6]] 1 [2; 4; 6]); done.
Defined.

(** X4 on two images and one target. *)
Lemma validation_step_missing_target_witness :
  ∃ w' : @World torch detection metrics,
    @validation_step torch detection metrics (lightning 3) ([[1]; [2]], [target]) 0 world
    = (Raise IndexError, w')
    ∧ @metric_added torch detection metrics (metric w')
      = [ ([[1; 2; 3; 4; 1; 9]], [[0; 0; 5; 5; 2; 0; 0]]) ].
Proof.
  destruct (@validation_step_missing_target torch detection metrics (lightning 3) (ssd 3)
              [[1]; [2]] [target] 0 world)
    as (w' & Hrun & _ & Hadd & _).
  - reflexivity.
  - cbn. lia.
  - repeat constructor.
  - repeat constructor.
  - exists w'. split; [exact Hrun|exact Hadd].
Defined.

(** X5 on one image and two targets. *)
Lemma validation_step_surplus_targets_witness :
  ∃ (v : Z) (w' : @World torch detection metrics),
    @validation_step torch detection metrics (lightning 3) ([[1]], [target; target]) 0 world
    = (Ok v, w')
    ∧ @metric_added torch detection metrics (metric w')
      = [ ([[1; 2; 3; 4; 1; 9]], [[0; 0; 5; 5; 2; 0; 0]]) ].
Proof.
  destruct (@validation_step_surplus_targets torch detection metrics (lightning 3) (ssd 3)
              [[1]] [target; target] 0 world)
    as (v & w' & Hrun & _ & Hadd & _).
  - reflexivity.
  - cbn. lia.
  - repeat constructor.
  - repeat constructor.
  - exists v, w'. split; [exact Hrun|exact Hadd].
Defined.

(** X7 on two batches, of one and of two images. *)
Lemma validation_steps_accumulate_witness :
  ∃ (vs : list Z) (w' : @World torch detection metrics),
    @validation_steps torch detection metrics (lightning 3)
      [([[1]], [target]); ([[2]; [3]], [target; target])] 0 world = (Ok vs, w')
    ∧ length (@metric_added torch detection metrics (metric w')) = 3%nat.
Proof.
  destruct (@validation_steps_accumulate torch detection metrics (lightning 3) (ssd 3)
              [([[1]], [target]); ([[2]; [3]], [target; target])] 0 world)
    as (vs & w' & Hrun & _ & Hadd & _).
  - reflexivity.
  - repeat constructor.
  - exists vs, w'. split; [exact Hrun|]. by rewrite Hadd.
Defined.

(** X8 on the same two batches, after an earlier epoch left a pair. *)
Lemma validation_epoch_reports_last_value_witness :
  ∃ (vs : list Z) (v : Z) (w' : @World torch detection metrics),
    @validation_epoch torch detection metrics (lightning 3)
      [([[1]], [target]); ([[2]; [3]], [target; target])]
      (@Build_World torch detection metrics [([], [])] []) = (Ok vs, w')
    ∧ last vs = Some v
    ∧ last (trace w') = Some (EvInfo "Validation mAP: %1.4f" [v]).
Proof.
  destruct (@validation_epoch_reports_last_value torch detection metrics (lightning 3)
              (ssd 3) [([[1]], [target]); ([[2]; [3]], [target; target])]
              (@Build_World torch detection metrics [([], [])] []))
    as (vs & v & w' & Hrun & Hlast & Htrace & _).
  - reflexivity.
  - repeat constructor.
  - discriminate.
  - exists vs, v, w'. split; [exact Hrun|]. split; [exact Hlast|exact Htrace].
Defined.

(** X10 on a module built without a detector. *)
Lemma methods_without_detector_witness :
  @invoke torch detection metrics
    {| model := None;
       metric_fn := {| metric_name := "map_2d"; async_mode := true;
                       metric_num_classes := 3 |};
       num_classes := PyInt 5 |}
    (call_validation_step ([[1]], [target]) 0) world
  = (Raise TypeError, world).
Proof.
  apply (@methods_without_detector torch detection metrics); [reflexivity|].
  unfold delegating. cbn [method_of]. by repeat constructor.
Defined.

(** X11 on [training_step]: the accumulator is as before. *)
Lemma methods_frame_witness :
  metric (@invoke torch detection metrics (lightning 3)
            (call_training_step ([[1]], [target]) 0)
            (@Build_World torch detection metrics [([], [])] [])).2
  = [([], [])].
Proof.
  match goal with
  | |- metric (invoke ?self ?c ?w).2 = _ => apply (proj1 (methods_frame self c w))
  end.
  cbn [method_of]. intros Hin.
  repeat (apply elem_of_cons in Hin as [Hin|Hin]; [discriminate Hin|]).
  by apply elem_of_nil in Hin.
Defined.




(** X17 on a ReXNetV1 of three layers. *)
Lemma ReXNetSSDBackbone_short_features_witness :
  @ReXNetSSDBackbone_forward torch
    (ReXNetSSDBackbone_init {| features := [1; 2; 3] |}) [7]
  = Ok [ ("0", [7; 672]); ("1", [7; 672; 480]); ("2", [7; 672; 480; 512]);
         ("3", [7; 672; 480; 512; 256]); ("4", [7; 672; 480; 512; 256; 256]);
         ("5", [7; 672; 480; 512; 256; 256; 128]) ]%string.
Proof.
  refine (proj2 (@ReXNetSSDBackbone_short_features torch {| features := [1; 2; 3] |}
                   [7] _)).
  cbn. lia.
Defined.

(** X18 on three samples of two items. *)
Lemma collate_batch_twice_witness :
  collate_batch (collate_batch [[1; 2]; [3; 4]; [5; 6]]) = [[1; 2]; [3; 4]; [5; 6]].
Proof.
  apply (collate_batch_twice [[1; 2]; [3; 4]; [5; 6]] 2); [done|lia|].
  by repeat constructor.
Defined.
End MoreExamples.

Section IllBehavedDetector.
Import Toy.
#[local] Existing Instances torch rexnet Toy2.detection Toy2.metrics.

(** X6 on a detector that returns a box without a score. *)
Lemma validation_step_ill_shaped_witness :
  ∃ w' : @World torch Toy2.detection Toy2.metrics,
    @validation_step torch Toy2.detection Toy2.metrics (lightning 3) ([[1]], [target]) 0
      Toy2.world
    = (Raise ValueError, w')
    ∧ @metric_added torch Toy2.detection Toy2.metrics (metric w') = [].
Proof.
  destruct (@validation_step_ill_shaped torch Toy2.detection Toy2.metrics (lightning 3)
              (ssd 3) [[1]] [target] 0 Toy2.world 0
              {| det_boxes := [ {| x1 := 1; y1 := 2; x2 := 3; y2 := 4 |} ];
                 det_scores := []; det_labels := [1] |} target)
    as (w' & Hrun & _ & Hadd).
  - reflexivity.
  - reflexivity.
  - reflexivity.
  - intros [[Hscores _] _]. discriminate Hscores.
  - constructor.
  - constructor.
  - exists w'. split; [exact Hrun|exact Hadd].
Defined.

(** X9 on a detector whose losses lack [classification]. *)
Lemma training_step_missing_loss_witness :
  (@training_step torch Toy2.detection Toy2.metrics (lightning 3) ([[1]], [target]) 0
     Toy2.world).1
  = Raise (KeyError "classification").
Proof.
  exact (f_equal fst
           (@training_step_missing_loss torch Toy2.detection Toy2.metrics (lightning 3)
              (ssd 3) [[1]] [target] 0 Toy2.world eq_refl eq_refl)).
Defined.
End IllBehavedDetector.
